(** * ThreadHeaven: the cart ledger and the checkout flow

    A shallow embedding of [CartManager] and of its checkout handlers.  The
    repository holds two copies of the cart script.  Their ledger operations
    ([addItem], [removeItem], [updateQuantity], [getTotal], [getItemCount],
    [clear], [saveToStorage]) are the same text and are embedded once; what
    differs is embedded per copy: module [Hosted] for the copy that hands
    off to the hosted payment page ([processPayPalCheckout]), module
    [Simulated] for the copy that simulates the payment ([processPayment]).

    Conventions of the embedding.
    - JavaScript numbers that the cart handles (prices, quantities, array
      indices) are modelled as [Z]: the embedding covers integer values.
      The [+] of [item.quantity += quantity] and of the quantity buttons
      is [js_add], the double addition with its rounding beyond 2^53; the
      sums of [getTotal] and [getItemCount] are sums in [Z], which is what
      the doubles give as long as every partial sum stays within 2^53 in
      absolute value.
    - A string is the sequence of its code units, one [ascii] each: the
      embedding covers the strings whose code units are below 256.
    - [localStorage] holds strings; [JSON.parse] and [JSON.stringify] belong
      to the platform.  A stored string is represented by what [JSON.parse]
      makes of it (see [Blob]).
    - A handler that throws is a value [Throw e] of [Outcome]; [try]/[catch]
      is [try_catch].
    - [await] splits a handler into the steps that run between two
      suspensions; what the environment supplies ([Date.now()],
      [Math.random()], the answer of the remote sink) is an argument of the
      step. *)

From Stdlib Require Import ZArith String Ascii List Lia Bool.
From stdpp Require Import base numbers list strings pretty.

Local Open Scope Z_scope.

(** ** Values *)

(** The [id] of a product is a number (the built-in catalogue uses 1..6) or
    a string (a key of the hosted database); [===] compares without
    coercion. *)
Inductive JsId : Type :=
| IdNum (n : Z)
| IdStr (s : string).

Definition id_strict_eq (a b : JsId) : bool :=
  match a, b with
  | IdNum n, IdNum m => Z.eqb n m
  | IdStr s, IdStr t => String.eqb s t
  | _, _ => false
  end.

(** A size is [null] or the label of the chosen size button. *)
Definition size_strict_eq (a b : option string) : bool :=
  match a, b with
  | None, None => true
  | Some s, Some t => String.eqb s t
  | _, _ => false
  end.

(** ** Numbers

    A JavaScript number is a double.  Up to 2^53 in absolute value every
    integer is a double; beyond, the doubles are the multiples of the unit
    in the last place, [2 ^ (log2 |z| - 52)].  [double_round] rounds an
    exact integer result to the nearest double, ties to the even
    significand.  Results that reach 2^1024 (they round to [Infinity]) are
    outside the embedding. *)
Definition double_round (z : Z) : Z :=
  let a := Z.abs z in
  if a <=? 2 ^ 53 then z
  else
    let ulp := 2 ^ (Z.log2 a - 52) in
    let q := a / ulp in
    let r := a mod ulp in
    Z.sgn z * ((if 2 * r <? ulp then q
                else if ulp <? 2 * r then q + 1
                else if Z.even q then q else q + 1) * ulp).

(** [a + b] on two integer doubles. *)
Definition js_add (a b : Z) : Z := double_round (a + b).

(** The integers on which the addition of doubles is the addition of
    integers. *)
Definition safe_range (z : Z) : Prop := - 2 ^ 53 <= z <= 2 ^ 53.

Module Product.
Record t : Type := mk {
  id : JsId;
  name : string;
  material : string;
  price : Z;
  image_url : string
}.
End Product.

Module Item.
Record t : Type := mk {
  id : JsId;
  name : string;
  price : Z;
  image_url : string;
  material : string;
  size : option string;
  quantity : Z
}.

(** [item.quantity += n] and [item.quantity = n]. *)
Definition add_quantity (n : Z) (it : t) : t :=
  mk (id it) (name it) (price it) (image_url it) (material it) (size it)
     (js_add (quantity it) n).

Definition set_quantity (n : Z) (it : t) : t :=
  mk (id it) (name it) (price it) (image_url it) (material it) (size it) n.
End Item.

(** The JSON data model, for what [JSON.parse] can return; numbers are
    integers, as everywhere in the embedding. *)
#[local] Set Warnings "-register-all".
Inductive JsValue : Type :=
| JNull
| JBool (b : bool)
| JNum (n : Z)
| JStr (s : string)
| JArr (elems : list JsValue)
| JObj (fields : list (string * JsValue)).

(** ** Exceptions *)

Inductive JsError : Type :=
| TypeError
| SyntaxError
| ReferenceError
| Error (message : string).

Inductive Outcome (A : Type) : Type :=
| Ret (a : A)
| Throw (e : JsError).

Arguments Ret {A} a.
Arguments Throw {A} e.

#[global] Instance Outcome_ret : MRet Outcome := fun A a => Ret a.

#[global] Instance Outcome_bind : MBind Outcome := fun A B k m =>
  match m with
  | Ret a => k a
  | Throw e => Throw e
  end.

Definition try_catch {A : Type} (m : Outcome A) (handler : JsError -> Outcome A)
  : Outcome A :=
  match m with
  | Ret a => Ret a
  | Throw e => handler e
  end.

(** ** Arrays *)

(** [arr.findIndex(p)]: the first index whose element satisfies [p], or -1. *)
Fixpoint findIndex_from {A : Type} (p : A -> bool) (l : list A) (i : Z) : Z :=
  match l with
  | [] => -1
  | x :: l' => if p x then i else findIndex_from p l' (i + 1)
  end.

Definition findIndex {A : Type} (p : A -> bool) (l : list A) : Z :=
  findIndex_from p l 0.

(** [arr[i]]: [undefined] (here [None]) outside [0 .. length-1]. *)
Definition js_index {A : Type} (l : list A) (i : Z) : option A :=
  if i <? 0 then None else l !! Z.to_nat i.

(** [arr.splice(index, 1)], for the array it leaves.  A negative [index]
    counts from the end and is clamped at 0; an [index] beyond the end is
    clamped at the length, where nothing is left to delete. *)
Definition splice_start {A : Type} (l : list A) (index : Z) : Z :=
  let len := Z.of_nat (length l) in
  if index <? 0 then Z.max (len + index) 0 else Z.min index len.

Definition splice1 {A : Type} (index : Z) (l : list A) : list A :=
  delete (Z.to_nat (splice_start l index)) l.

(** ** The persistent store *)

(** A string kept under a key of [localStorage], seen through [JSON.parse]:
    the empty string, a string that is not empty and on which [JSON.parse]
    throws, or a string that [JSON.parse] accepts, with the value it
    returns. *)
Inductive Blob : Type :=
| EmptyText
| NotJson
| Json (v : JsValue).

Definition JSON_parse (b : Blob) : Outcome JsValue :=
  match b with
  | EmptyText => Throw SyntaxError
  | NotJson => Throw SyntaxError
  | Json v => Ret v
  end.

(** [if (saved)]: [null] (the key is absent) and the empty string are
    falsy. *)
Definition truthy (saved : option Blob) : bool :=
  match saved with
  | None => false
  | Some EmptyText => false
  | Some _ => true
  end.

Definition id_to_js (i : JsId) : JsValue :=
  match i with
  | IdNum n => JNum n
  | IdStr s => JStr s
  end.

Definition size_to_js (s : option string) : JsValue :=
  match s with
  | None => JNull
  | Some l => JStr l
  end.

Definition item_to_js (it : Item.t) : JsValue :=
  JObj [ ("id"%string, id_to_js (Item.id it));
         ("name"%string, JStr (Item.name it));
         ("price"%string, JNum (Item.price it));
         ("image_url"%string, JStr (Item.image_url it));
         ("material"%string, JStr (Item.material it));
         ("size"%string, size_to_js (Item.size it));
         ("quantity"%string, JNum (Item.quantity it)) ].

(** [JSON.stringify(this.items)] *)
Definition JSON_stringify (items : list Item.t) : Blob :=
  Json (JArr (map item_to_js items)).

(** ** The cart ledger *)

(** [this.items], the key of [localStorage] that holds the cart, and the
    part of the page the ledger writes to: the count in the label of
    [.cart-btn] ([None] when the page has no such element) and the
    notifications shown. *)
Record CartManager : Type := mkCart {
  items : list Item.t;
  threadheaven_cart : option Blob;
  cart_btn : option Z;
  notifications : list string
}.

(** The two [reduce] sums, as sums of integers: they are the sums of the
    doubles while the prices are integers and every product and partial sum
    stays within 2^53 in absolute value. *)
Definition getTotal (c : CartManager) : Z :=
  fold_left (fun sum item => sum + Item.price item * Item.quantity item) (items c) 0.

Definition getItemCount (c : CartManager) : Z :=
  fold_left (fun sum item => sum + Item.quantity item) (items c) 0.

Definition updateCartUI (c : CartManager) : CartManager :=
  match cart_btn c with
  | Some _ => mkCart (items c) (threadheaven_cart c) (Some (getItemCount c)) (notifications c)
  | None => c
  end.

Definition saveToStorage (c : CartManager) : CartManager :=
  updateCartUI
    (mkCart (items c) (Some (JSON_stringify (items c))) (cart_btn c) (notifications c)).

Definition showNotification (message : string) (c : CartManager) : CartManager :=
  mkCart (items c) (threadheaven_cart c) (cart_btn c) (notifications c ++ [message]).

Definition set_items (l : list Item.t) (c : CartManager) : CartManager :=
  mkCart l (threadheaven_cart c) (cart_btn c) (notifications c).

Definition same_line (pid : JsId) (size : option string) (item : Item.t) : bool :=
  id_strict_eq (Item.id item) pid && size_strict_eq (Item.size item) size.

Definition new_item (product : Product.t) (quantity : Z) (size : option string) : Item.t :=
  Item.mk (Product.id product) (Product.name product) (Product.price product)
          (Product.image_url product) (Product.material product) size quantity.

(** The array [addItem] leaves in [this.items]. *)
Definition add_line (product : Product.t) (quantity : Z) (size : option string)
  (l : list Item.t) : list Item.t :=
  let existingIndex := findIndex (same_line (Product.id product) size) l in
  if existingIndex >? -1
  then alter (Item.add_quantity quantity) (Z.to_nat existingIndex) l
  else l ++ [new_item product quantity size].

Definition addItem (product : Product.t) (quantity : Z) (size : option string)
  (c : CartManager) : CartManager :=
  showNotification (Product.name product ++ " added to cart!")
    (saveToStorage (set_items (add_line product quantity size (items c)) c)).

Definition removeItem (index : Z) (c : CartManager) : CartManager :=
  saveToStorage (set_items (splice1 index (items c)) c).

(** [this.items[index].quantity = quantity] throws a [TypeError] when
    [this.items[index]] is [undefined]. *)
Definition updateQuantity (index quantity : Z) (c : CartManager) : Outcome CartManager :=
  if quantity <=? 0 then Ret (removeItem index c)
  else
    match js_index (items c) index with
    | None => Throw TypeError
    | Some _ =>
        Ret (saveToStorage
               (set_items (alter (Item.set_quantity quantity) (Z.to_nat index) (items c)) c))
    end.

Definition clear (c : CartManager) : CartManager :=
  saveToStorage (set_items [] c).

(** The calls of the public operations of the ledger. *)
Inductive Call : Type :=
| AddItem (product : Product.t) (quantity : Z) (size : option string)
| RemoveItem (index : Z)
| UpdateQuantity (index quantity : Z)
| Clear.

Definition call (k : Call) (c : CartManager) : Outcome CartManager :=
  match k with
  | AddItem product quantity size => Ret (addItem product quantity size c)
  | RemoveItem index => Ret (removeItem index c)
  | UpdateQuantity index quantity => updateQuantity index quantity c
  | Clear => Ret (clear c)
  end.

(** The ledger after a call made from an event handler of the page: an
    exception ends the handler, the ledger stays as the call left it (an
    [updateQuantity] that throws has changed nothing yet). *)
Definition after_call (k : Call) (c : CartManager) : CartManager :=
  match call k c with
  | Ret c' => c'
  | Throw _ => c
  end.

Definition calls (ks : list Call) (c : CartManager) : CartManager :=
  fold_left (fun c k => after_call k c) ks c.

(** The ledger of a page that has no saved cart. *)
Definition empty_cart (btn : option Z) : CartManager := mkCart [] None btn [].

(** ** Loading the cart *)

(** Reading [v.length] for the log line: a [TypeError] on [null], a value
    (possibly [undefined]) on everything else [JSON.parse] returns. *)
Definition read_length (v : JsValue) : Outcome unit :=
  match v with
  | JNull => Throw TypeError
  | _ => Ret tt
  end.

(** Reading a parsed value back as a sequence of line items. *)
Fixpoint field (key : string) (fields : list (string * JsValue)) : option JsValue :=
  match fields with
  | [] => None
  | (k, v) :: rest => if String.eqb k key then Some v else field key rest
  end.

Definition js_to_id (v : JsValue) : option JsId :=
  match v with
  | JNum n => Some (IdNum n)
  | JStr s => Some (IdStr s)
  | _ => None
  end.

Definition js_to_string (v : JsValue) : option string :=
  match v with
  | JStr s => Some s
  | _ => None
  end.

Definition js_to_num (v : JsValue) : option Z :=
  match v with
  | JNum n => Some n
  | _ => None
  end.

Definition js_to_size (v : JsValue) : option (option string) :=
  match v with
  | JNull => Some None
  | JStr s => Some (Some s)
  | _ => None
  end.

Definition js_to_item (v : JsValue) : option Item.t :=
  match v with
  | JObj f =>
      i ← field "id" f ≫= js_to_id;
      n ← field "name" f ≫= js_to_string;
      p ← field "price" f ≫= js_to_num;
      u ← field "image_url" f ≫= js_to_string;
      m ← field "material" f ≫= js_to_string;
      s ← field "size" f ≫= js_to_size;
      q ← field "quantity" f ≫= js_to_num;
      Some (Item.mk i n p u m s q)
  | _ => None
  end.

Definition as_cart (v : JsValue) : option (list Item.t) :=
  match v with
  | JArr elems => mapM js_to_item elems
  | _ => None
  end.

(** The value is a sequence of line items. *)
Definition well_formed_cart (v : JsValue) : bool :=
  match as_cart v with
  | Some _ => true
  | None => false
  end.

(** ** The checkout flow *)

Local Open Scope string_scope.

(** [s.includes(c)] for a one-character needle. *)
Fixpoint includes (c : ascii) (s : string) : bool :=
  match s with
  | EmptyString => false
  | String a rest => Ascii.eqb a c || includes c rest
  end.

(** [s.slice(-n)]: the last [n] characters, the whole string when shorter. *)
Definition slice_last (n : nat) (s : string) : string :=
  String.substring (String.length s - n) n s.

(** [n.toString()] for an integer. *)
Definition toString (n : Z) : string := pretty n.

(** The values of the fields of the shipping form. *)
Module Customer.
Record t : Type := mk {
  email : string;
  name : string;
  address : string;
  city : string;
  zip : string;
  country : string
}.
End Customer.

(** One line of the order summary, as rendered: name, size, quantity and
    the amount of the line. *)
Record SummaryLine : Type := mkLine {
  line_name : string;
  line_size : option string;
  line_quantity : Z;
  line_amount : Z
}.

Definition render_line (item : Item.t) : SummaryLine :=
  mkLine (Item.name item) (Item.size item) (Item.quantity item)
         (Item.price item * Item.quantity item).

(** What [.checkout-content] holds: the summary with the form, or the
    success screen with the order id and the destination email. *)
Inductive Content : Type :=
| CheckoutForm
| SuccessScreen (orderId : string) (email : string).

(** The checkout overlay: the summary rendered when it was built, the
    current values of the form fields, the [disabled] flag of the submit
    button, and the content. *)
Record Overlay : Type := mkOverlay {
  summary : list SummaryLine;
  summary_total : Z;
  fields : Customer.t;
  btn_disabled : bool;
  content : Content
}.

Definition empty_form : Customer.t := Customer.mk "" "" "" "" "" "".

(** The overlay as [showCheckoutModal] builds it: the lines and the total
    as numbers (their formatting for display is not part of the
    embedding), and the fields empty; the country, like the other fields,
    gets its value by [Input]. *)
Definition render_overlay (c : CartManager) : Overlay :=
  mkOverlay (map render_line (items c)) (getTotal c) empty_form false CheckoutForm.

Definition set_btn_disabled (b : bool) (o : Overlay) : Overlay :=
  mkOverlay (summary o) (summary_total o) (fields o) b (content o).

Definition set_fields (f : Customer.t) (o : Overlay) : Overlay :=
  mkOverlay (summary o) (summary_total o) f (btn_disabled o) (content o).

Definition set_content (k : Content) (o : Overlay) : Overlay :=
  mkOverlay (summary o) (summary_total o) (fields o) (btn_disabled o) k.

(** The pending order written before the hand-off to the payment page. *)
Record PendingOrder : Type := mkPending {
  pending_customer : Customer.t;
  pending_items : list Item.t;
  pending_total : Z;
  pending_timestamp : Z
}.

(** The page and its collaborators, as far as the cart script reads and
    writes them.  [sink] lists the arguments of the calls of
    [db.createOrder], oldest first; [inflight] is the handler suspended at an
    [await], if any; [opening] is set while [showCheckoutModal] waits for its
    dependencies; [db] tells whether the global [db] is defined.  The world
    tracks one checkout overlay, the one the latest checkout has built. *)
Record World (Order Suspended : Type) : Type := mkWorld {
  cart : CartManager;
  threadheaven_pending_order : option PendingOrder;
  cart_modal : bool;
  opening : bool;
  overlay : option Overlay;
  alerts : list string;
  db : bool;
  sink : list Order;
  inflight : option Suspended
}.

Arguments mkWorld {Order Suspended}.
Arguments cart {Order Suspended}.
Arguments threadheaven_pending_order {Order Suspended}.
Arguments cart_modal {Order Suspended}.
Arguments opening {Order Suspended}.
Arguments overlay {Order Suspended}.
Arguments alerts {Order Suspended}.
Arguments db {Order Suspended}.
Arguments sink {Order Suspended}.
Arguments inflight {Order Suspended}.

Section WorldUpdates.
Context {Order Suspended : Type}.
#[local] Abbreviation World := (World Order Suspended).

Definition set_cart (c : CartManager) (w : World) : World :=
  mkWorld c (threadheaven_pending_order w) (cart_modal w) (opening w) (overlay w)
          (alerts w) (db w) (sink w) (inflight w).

Definition set_pending_order (p : PendingOrder) (w : World) : World :=
  mkWorld (cart w) (Some p) (cart_modal w) (opening w) (overlay w)
          (alerts w) (db w) (sink w) (inflight w).

Definition set_cart_modal (b : bool) (w : World) : World :=
  mkWorld (cart w) (threadheaven_pending_order w) b (opening w) (overlay w)
          (alerts w) (db w) (sink w) (inflight w).

Definition set_opening (b : bool) (w : World) : World :=
  mkWorld (cart w) (threadheaven_pending_order w) (cart_modal w) b (overlay w)
          (alerts w) (db w) (sink w) (inflight w).

Definition set_overlay (o : option Overlay) (w : World) : World :=
  mkWorld (cart w) (threadheaven_pending_order w) (cart_modal w) (opening w) o
          (alerts w) (db w) (sink w) (inflight w).

Definition alert (message : string) (w : World) : World :=
  mkWorld (cart w) (threadheaven_pending_order w) (cart_modal w) (opening w) (overlay w)
          (alerts w ++ [message]) (db w) (sink w) (inflight w).

Definition call_createOrder (o : Order) (w : World) : World :=
  mkWorld (cart w) (threadheaven_pending_order w) (cart_modal w) (opening w) (overlay w)
          (alerts w) (db w) (sink w ++ [o]) (inflight w).

Definition set_inflight (k : option Suspended) (w : World) : World :=
  mkWorld (cart w) (threadheaven_pending_order w) (cart_modal w) (opening w) (overlay w)
          (alerts w) (db w) (sink w) k.

(** An update of the overlay, when the page has one. *)
Definition on_overlay (f : Overlay -> Overlay) (w : World) : World :=
  set_overlay (f <$> overlay w) w.

(** The [submit] event of the checkout form: the listener runs unless the
    button is disabled or the form is gone.  Whether the browser fires the
    event when the user activates the button is the matter of
    [Validation.user_submits]. *)
Definition submit_form (listener : Overlay -> World -> World) (w : World) : World :=
  match overlay w with
  | Some o =>
      match content o with
      | CheckoutForm => if btn_disabled o then w else listener o w
      | SuccessScreen _ _ => w
      end
  | None => w
  end.

End WorldUpdates.

(** *** The hosted-payment copy: [processPayPalCheckout] *)

Module Hosted.

Record Order : Type := mkOrder {
  order_id : string;
  customer_email : string;
  amount : Z;
  status : string;
  order_items : list Item.t;
  shipping_address : string
}.

(** [processPayPalCheckout] waiting for [db.createOrder]: its locals
    [orderId] and [customer]. *)
Record Suspended : Type := mkSuspended {
  orderId : string;
  customer : Customer.t
}.

Abbreviation World := (World Order Suspended).

(** [loadFromStorage] gives the value of [this.items] it leaves, from the
    value [this.items] had ([items0]) and the content of the key
    [threadheaven_cart] ([saved], [None] when the key is absent).  This copy
    reads [this.items.length] for its log line inside the [try]. *)
Definition loadFromStorage (saved : option Blob) (items0 : JsValue) : Outcome JsValue :=
  if truthy saved then
    match saved with
    | Some b =>
        try_catch
          (v ← JSON_parse b;
           _ ← read_length v;
           mret v)
          (fun _ => Ret (JArr []))
    | None => Ret items0
    end
  else Ret items0.

Definition constructor (saved : option Blob) : Outcome JsValue :=
  loadFromStorage saved (JArr []).

(** [showCheckoutModal] first awaits [loadDependencies], then builds the
    overlay from [this.items] as they are when it resumes. *)
Definition showCheckoutModal (w : World) : World := set_opening true w.

Definition showCheckoutModal_resumed (w : World) : World :=
  if opening w
  then set_overlay (Some (render_overlay (cart w))) (set_opening false w)
  else w.

Definition checkout (w : World) : World :=
  if (length (items (cart w)) =? 0)%nat then w
  else showCheckoutModal (set_cart_modal false w).

(** The [catch] block of [processPayPalCheckout]. *)
Definition catch_error (w : World) : World :=
  alert "There was an error processing your order. Please try again."
        (on_overlay (set_btn_disabled false) w).

(** [processPayPalCheckout], up to its [await].  [now_pending] and [now_id]
    are the two readings of [Date.now()], [random] is
    [Math.floor(Math.random() * 1000)]. *)
Definition processPayPalCheckout (now_pending now_id random : Z)
  (o : Overlay) (w : World) : World :=
  let customer := fields o in
  if String.eqb (Customer.email customer) "" || negb (includes "@" (Customer.email customer))
  then alert "Please enter a valid email address" w
  else
    let w1 := on_overlay (set_btn_disabled true) w in
    let pendingOrder :=
      mkPending customer (items (cart w1)) (getTotal (cart w1)) now_pending in
    let w2 := set_pending_order pendingOrder w1 in
    if negb (db w2) then catch_error w2
    else
      let orderId := "ORD-" ++ slice_last 6 (toString now_id) ++ toString random in
      let order :=
        mkOrder orderId (Customer.email customer) (getTotal (cart w2)) "pending"
                (items (cart w2))
                (Customer.address customer ++ ", " ++ Customer.city customer ++ ", "
                 ++ Customer.zip customer ++ ", " ++ Customer.country customer) in
      set_inflight (Some (mkSuspended orderId customer)) (call_createOrder order w2).

(** [processPayPalCheckout], from the moment [db.createOrder] settles:
    fulfilled ([ok = true]) or rejected. *)
Definition processPayPalCheckout_settled (ok : bool) (w : World) : World :=
  match inflight w with
  | None => w
  | Some k =>
      let w1 := set_inflight None w in
      if ok then
        let w2 := set_cart (clear (cart w1)) w1 in
        on_overlay (set_content (SuccessScreen (orderId k) (Customer.email (customer k)))) w2
      else catch_error w1
  end.

Inductive Event : Type :=
| Ledger (k : Call)
| Checkout
| DependenciesLoaded
| Input (f : Customer.t)
| Submit (now_pending now_id random : Z)
| OrderSettled (ok : bool).

Definition step (e : Event) (w : World) : World :=
  match e with
  | Ledger k => set_cart (after_call k (cart w)) w
  | Checkout => checkout w
  | DependenciesLoaded => showCheckoutModal_resumed w
  | Input f => on_overlay (set_fields f) w
  | Submit now_pending now_id random =>
      submit_form (processPayPalCheckout now_pending now_id random) w
  | OrderSettled ok => processPayPalCheckout_settled ok w
  end.

Definition run (es : list Event) (w : World) : World :=
  fold_left (fun w e => step e w) es w.

(** A page whose ledger is [c], before any checkout. *)
Definition idle (c : CartManager) (db_defined : bool) : World :=
  mkWorld c None false false None [] db_defined [] None.

End Hosted.

(** *** The simulated-payment copy: [processPayment] *)

Module Simulated.

Record Order : Type := mkOrder {
  status : string;
  total_amount : Z;
  customer_email : string;
  customer_name : string;
  created_at : Z
}.

Record OrderItem : Type := mkOrderItem {
  product_id : JsId;
  quantity : Z;
  price : Z;
  size : option string
}.

(** [processPayment] is suspended either on the timer of the simulated
    payment or on [db.createOrder], with its local [email]. *)
Inductive Suspended : Type :=
| Delay
| Saving (email : string).

Abbreviation World := (World (Order * list OrderItem) Suspended).

Definition loadFromStorage (saved : option Blob) (items0 : JsValue) : Outcome JsValue :=
  if truthy saved then
    match saved with
    | Some b => try_catch (v ← JSON_parse b; mret v) (fun _ => Ret (JArr []))
    | None => Ret items0
    end
  else Ret items0.

Definition constructor (saved : option Blob) : Outcome JsValue :=
  loadFromStorage saved (JArr []).

Definition showCheckoutModal (w : World) : World :=
  set_overlay (Some (render_overlay (cart w))) w.

Definition checkout (w : World) : World :=
  if (length (items (cart w)) =? 0)%nat then w
  else showCheckoutModal (set_cart_modal false w).

(** [processPayment], up to the timer. *)
Definition processPayment (o : Overlay) (w : World) : World :=
  set_inflight (Some Delay) (on_overlay (set_btn_disabled true) w).

(** The tail of [processPayment]: the success screen, then [this.clear()]. *)
Definition processPayment_finish (email : string) (now_id : Z) (w : World) : World :=
  let orderId := "TH-" ++ slice_last 8 (toString now_id) in
  let w1 := on_overlay (set_content (SuccessScreen orderId email)) w in
  set_cart (clear (cart w1)) (set_inflight None w1).

(** [processPayment], from the timer to [db.createOrder]; when [db] is not
    defined the [ReferenceError] is caught and the handler runs on to its
    end.  [now_created] and [now_id] are the readings of the clock. *)
Definition processPayment_delay_elapsed (now_created now_id : Z) (w : World) : World :=
  match inflight w, overlay w with
  | Some Delay, Some o =>
      let email := Customer.email (fields o) in
      let name := Customer.name (fields o) in
      let order := mkOrder "paid" (getTotal (cart w)) email name now_created in
      let orderItems :=
        map (fun item => mkOrderItem (Item.id item) (Item.quantity item)
                                     (Item.price item) (Item.size item))
            (items (cart w)) in
      if db w
      then set_inflight (Some (Saving email)) (call_createOrder (order, orderItems) w)
      else processPayment_finish email now_id w
  | _, _ => w
  end.

(** [processPayment], from the moment [db.createOrder] settles: a rejection
    is logged and the handler goes on as after a fulfilment. *)
Definition processPayment_settled (ok : bool) (now_id : Z) (w : World) : World :=
  match inflight w with
  | Some (Saving email) => processPayment_finish email now_id w
  | _ => w
  end.

Inductive Event : Type :=
| Ledger (k : Call)
| Checkout
| Input (f : Customer.t)
| Submit
| DelayElapsed (now_created now_id : Z)
| OrderSettled (ok : bool) (now_id : Z).

Definition step (e : Event) (w : World) : World :=
  match e with
  | Ledger k => set_cart (after_call k (cart w)) w
  | Checkout => checkout w
  | Input f => on_overlay (set_fields f) w
  | Submit => submit_form processPayment w
  | DelayElapsed now_created now_id => processPayment_delay_elapsed now_created now_id w
  | OrderSettled ok now_id => processPayment_settled ok now_id w
  end.

Definition run (es : list Event) (w : World) : World :=
  fold_left (fun w e => step e w) es w.

Definition idle (c : CartManager) (db_defined : bool) : World :=
  mkWorld c None false false None [] db_defined [] None.

End Simulated.

(** *** The constraint validation of the checkout forms

    Both forms are plain [form] elements with a submit button and without
    [novalidate], and the scripts never submit them themselves.  When the
    user activates the button the browser first validates the fields: when
    one is invalid it fires no [submit] event and shows its message at the
    first invalid field; [required] makes an empty field invalid,
    [type="email"] a text that is no valid e-mail address.  A read-only
    field is barred from the validation. *)

Module Validation.














(** The card fields of the form of the simulated copy, all [required]. *)
Record Card : Type := mkCard {
  card_number : string;
  card_expiry : string;
  card_cvc : string
}.



End Validation.



(** ** Notions used to state the properties *)





(** The line items of a cart for the pair [(pid, size)]. *)
Definition lines_of (pid : JsId) (size : option string) (c : CartManager) : list Item.t :=
  List.filter (same_line pid size) (items c).

(** Every line item has a quantity of at least 1. *)
Definition positive_quantities (c : CartManager) : Prop :=
  Forall (fun item => 1 <= Item.quantity item) (items c).

(** A call that requests at least 1 when it is an [addItem]. *)
Definition adds_at_least_one (k : Call) : Prop :=
  match k with
  | AddItem _ quantity _ => 1 <= quantity
  | _ => True
  end.

(** The content of the cart key does not deserialize to a sequence of line
    items. *)
Definition malformed (b : Blob) : bool :=
  match b with
  | EmptyText => true
  | NotJson => true
  | Json v => negb (well_formed_cart v)
  end.

(** Entries of the built-in catalogue. *)
Definition boxy_tee : Product.t :=
  Product.mk (IdNum 4) "Boxy Tee" "COTTON" 55 "assets/pants/pants.png".

Definition tech_cargo : Product.t :=
  Product.mk (IdNum 2) "Tech Cargo" "NYLON" 120 "assets/pants/pants.png".

(** A cart with two lines: two Boxy Tees without a size, one Tech Cargo in M. *)
Definition two_line_cart : CartManager :=
  calls [AddItem boxy_tee 2 None; AddItem tech_cargo 1 (Some "M")] (empty_cart None).

(** The email is not empty and contains the character [@]. *)
Definition valid_email (email : string) : bool :=
  negb (String.eqb email "") && includes "@" email.

(** The states of the checkout, read off the page: the form is shown and
    can be submitted; or a submission is under way (the form is shown with
    its submit button disabled); or the success screen is shown. *)
Definition form_shown {Order Suspended : Type} (w : World Order Suspended) : bool :=
  match overlay w with
  | Some o =>
      match content o with
      | CheckoutForm => negb (btn_disabled o)
      | SuccessScreen _ _ => false
      end
  | None => false
  end.

Definition submitting {Order Suspended : Type} (w : World Order Suspended) : bool :=
  match overlay w with
  | Some o =>
      match content o with
      | CheckoutForm => btn_disabled o
      | SuccessScreen _ _ => false
      end
  | None => false
  end.

Definition success_shown {Order Suspended : Type} (w : World Order Suspended) : bool :=
  match overlay w with
  | Some o =>
      match content o with
      | CheckoutForm => false
      | SuccessScreen _ _ => true
      end
  | None => false
  end.

(** The email in the form of the overlay, if any. *)
Definition form_email {Order Suspended : Type} (w : World Order Suspended) : string :=
  match overlay w with
  | Some o => Customer.email (fields o)
  | None => ""
  end.

(** What the user can do while a submission is under way: submit again,
    type into the form, change the cart. *)
Definition hosted_user_event (e : Hosted.Event) : Prop :=
  match e with
  | Hosted.Ledger _ | Hosted.Input _ | Hosted.Submit _ _ _ => True
  | _ => False
  end.

Definition simulated_user_event (e : Simulated.Event) : Prop :=
  match e with
  | Simulated.Ledger _ | Simulated.Input _ | Simulated.Submit => True
  | _ => False
  end.

(** A filled shipping form, and the same with the email erased. *)
Definition alice : Customer.t :=
  Customer.mk "alice@example.com" "Alice" "1 Main St" "Springfield" "12345" "US".

Definition alice_no_at : Customer.t :=
  Customer.mk "alice" "Alice" "1 Main St" "Springfield" "12345" "US".

(** A cart with one Boxy Tee. *)
Definition one_line_cart : CartManager :=
  calls [AddItem boxy_tee 1 None] (empty_cart None).

(** The order summary the user sees: the lines and the total of the
    overlay, while it shows the form. *)
Definition shown_summary {Order Suspended : Type} (w : World Order Suspended)
  : option (list SummaryLine * Z) :=
  match overlay w with
  | Some o =>
      match content o with
      | CheckoutForm => Some (summary o, summary_total o)
      | SuccessScreen _ _ => None
      end
  | None => None
  end.

(** A checkout from the idle page: checkout is entered, the ledger is
    called [ks], the form is filled with [f] and submitted.  In the
    simulated copy the ledger is also called [ks'] while the timer runs. *)
Definition hosted_session (ks : list Call) (f : Customer.t)
  (now_pending now_id random : Z) : list Hosted.Event :=
  [Hosted.Checkout; Hosted.DependenciesLoaded] ++ map Hosted.Ledger ks
  ++ [Hosted.Input f; Hosted.Submit now_pending now_id random].

Definition simulated_session (ks ks' : list Call) (f : Customer.t)
  (now_created now_id : Z) : list Simulated.Event :=
  [Simulated.Checkout] ++ map Simulated.Ledger ks
  ++ [Simulated.Input f; Simulated.Submit] ++ map Simulated.Ledger ks'
  ++ [Simulated.DelayElapsed now_created now_id].

(** The page with the form of a checkout of [one_line_cart] filled in. *)
Definition hosted_form_filled : Hosted.World :=
  Hosted.run [Hosted.Checkout; Hosted.DependenciesLoaded; Hosted.Input alice]
    (Hosted.idle one_line_cart true).

Definition simulated_form_filled : Simulated.World :=
  Simulated.run [Simulated.Checkout; Simulated.Input alice]
    (Simulated.idle one_line_cart true).

(** Checkout is entered with one Boxy Tee in the cart; a Tech Cargo is
    added; then the form is filled and submitted. *)
Definition hosted_added_during_checkout : Hosted.World :=
  Hosted.run
    (hosted_session [AddItem tech_cargo 1 (Some "M")] alice
       1730540000123 1730540000124 7)
    (Hosted.idle one_line_cart true).

(** A checkout of the simulated copy on which the remote sink rejects the
    order. *)
Definition simulated_rejected : Simulated.World :=
  Simulated.run
    [Simulated.Checkout; Simulated.Input alice; Simulated.Submit;
     Simulated.DelayElapsed 1730540002500 1730540002500;
     Simulated.OrderSettled false 1730540002900]
    (Simulated.idle one_line_cart true).


(** The hosted copy with [db] not defined, and with a submission waiting for
    the remote sink. *)
Definition hosted_form_filled_no_db : Hosted.World :=
  Hosted.run [Hosted.Checkout; Hosted.DependenciesLoaded; Hosted.Input alice]
    (Hosted.idle one_line_cart false).

Definition hosted_waiting : Hosted.World :=
  Hosted.step (Hosted.Submit 1730540000123 1730540000124 7) hosted_form_filled.

Definition hosted_form_no_at : Hosted.World :=
  Hosted.run [Hosted.Checkout; Hosted.DependenciesLoaded; Hosted.Input alice_no_at]
    (Hosted.idle one_line_cart true).

Definition simulated_saving : Simulated.World :=
  Simulated.run
    [Simulated.Submit; Simulated.DelayElapsed 1730540002500 1730540002500]
    simulated_form_filled.

(** ** Further notions *)

(** The sum of [f] over a list. *)
Definition sum_by {A : Type} (f : A -> Z) (l : list A) : Z :=
  foldr (fun x s => f x + s) 0 l.

(** No pair (product id, size) has more than one line item. *)
Definition at_most_one_line (c : CartManager) : Prop :=
  forall pid size, (length (lines_of pid size c) <= 1)%nat.

(** No line item has a quantity below 0. *)
Definition nonnegative_quantities (c : CartManager) : Prop :=
  Forall (fun item => 0 <= Item.quantity item) (items c).

(** ** The storefront page: catalogue, product modal, cart modal *)

Local Open Scope string_scope.

(** The other entries of the built-in catalogue (the [rotation] of an entry,
    a style class of its card, is not part of [Product.t]). *)
Definition onyx_jacket : Product.t :=
  Product.mk (IdNum 1) "Onyx Jacket" "LEATHER" 285 "assets/pants/pants.png".

Definition the_overcoat : Product.t :=
  Product.mk (IdNum 3) "The Overcoat" "WOOL" 345 "assets/pants/pants.png".

Definition combat_boot : Product.t :=
  Product.mk (IdNum 5) "Combat Boot" "LEATHER" 210 "assets/pants/pants.png".

Definition tech_parka : Product.t :=
  Product.mk (IdNum 6) "Tech Parka" "FLEECE" 145 "assets/pants/pants.png".

Module App.

Definition getStaticProducts : list Product.t :=
  [onyx_jacket; tech_cargo; the_overcoat; boxy_tee; combat_boot; tech_parka].

(** [`${product.id}`]: a number is printed in decimal, a string is itself. *)
Definition template_id (i : JsId) : string :=
  match i with
  | IdNum n => toString n
  | IdStr s => s
  end.

(** A product card: the product it shows and the string its [onclick]
    passes to [showProductModal]. *)
Record Card : Type := mkCard {
  card_product : Product.t;
  onclick_id : string
}.

Definition render_card (product : Product.t) : Card :=
  mkCard product (template_id (Product.id product)).

(** What [#products-grid] holds. *)
Inductive Grid : Type :=
| Skeleton
| Cards (cards : list Card).

(** The product modal: its product and the size chosen so far. *)
Record Modal : Type := mkModal {
  modal_product : Product.t;
  selectedSize : option string
}.

(** [this.products], [this.initialized], the grid of the page ([None] when
    the page has no [#products-grid]) and the product modal, if open. *)
Record t : Type := mk {
  products : list Product.t;
  initialized : bool;
  grid : option Grid;
  modal : option Modal
}.

Definition set_grid (g : Grid) (a : t) : t :=
  match grid a with
  | Some _ => mk (products a) (initialized a) (Some g) (modal a)
  | None => a
  end.

Definition showSkeletonLoading (a : t) : t := set_grid Skeleton a.

(** [loadProducts], given what [db.getProducts()] does. *)
Definition loadProducts (answer : Outcome (list Product.t)) (a : t) : t :=
  match answer with
  | Ret data => mk data (initialized a) (grid a) (modal a)
  | Throw _ => mk getStaticProducts (initialized a) (grid a) (modal a)
  end.

Definition renderProducts (a : t) : t :=
  set_grid (Cards (map render_card (products a))) a.

(** [init]; neither [loadProducts] nor [renderProducts] throws, so the
    [catch] of [init] is never entered.  The page loader is left out. *)
Definition init (answer : Outcome (list Product.t)) (a : t) : t :=
  if initialized a then a
  else
    let a1 := showSkeletonLoading a in
    let a2 := renderProducts (loadProducts answer a1) in
    mk (products a2) true (grid a2) (modal a2).

Definition showProductModal (productId : JsId) (a : t) : t :=
  match List.find (fun p => id_strict_eq (Product.id p) productId) (products a) with
  | None => a
  | Some product => mk (products a) (initialized a) (grid a) (Some (mkModal product None))
  end.

(** A click on the [n]-th card runs its [onclick]. *)
Definition click_card (n : nat) (a : t) : t :=
  match grid a with
  | Some (Cards cards) =>
      match cards !! n with
      | Some card => showProductModal (IdStr (onclick_id card)) a
      | None => a
      end
  | _ => a
  end.

Definition sizes : list string := ["XS"; "S"; "M"; "L"; "XL"].

(** A click on the [k]-th size button of the modal. *)
Definition click_size (k : nat) (a : t) : t :=
  match modal a, sizes !! k with
  | Some m, Some size =>
      mk (products a) (initialized a) (grid a) (Some (mkModal (modal_product m) (Some size)))
  | _, _ => a
  end.

Definition close_modal (a : t) : t :=
  mk (products a) (initialized a) (grid a) None.

End App.

(** The page: the application, the ledger, and the cart modal, which holds,
    row by row, the quantity each line had when the modal was rendered (the
    [onclick] of the buttons of a row carry the index of the row and that
    quantity minus and plus 1). *)
Module Page.

Record t : Type := mk {
  app : App.t;
  ledger : CartManager;
  cart_rows : option (list Z)
}.

Definition renderCartModal (p : t) : t :=
  mk (app p) (ledger p) (Some (map Item.quantity (items (ledger p)))).

Inductive Click : Type :=
| Card (n : nat)
| Size (k : nat)
| AddToCart
| CloseProduct
| CartButton
| Plus (row : nat)
| Minus (row : nat)
| Trash (row : nat)
| CloseCart.

(** The quantity rendered in a row of the open cart modal. *)
Definition rendered (row : nat) (p : t) : option Z :=
  match cart_rows p with
  | Some rows => rows !! row
  | None => None
  end.

Definition step (k : Click) (p : t) : t :=
  match k with
  | Card n => mk (App.click_card n (app p)) (ledger p) (cart_rows p)
  | Size k => mk (App.click_size k (app p)) (ledger p) (cart_rows p)
  | AddToCart =>
      match App.modal (app p) with
      | Some m =>
          mk (App.close_modal (app p))
             (addItem (App.modal_product m) 1 (App.selectedSize m) (ledger p))
             (cart_rows p)
      | None => p
      end
  | CloseProduct => mk (App.close_modal (app p)) (ledger p) (cart_rows p)
  | CartButton => renderCartModal p
  | Plus row =>
      match rendered row p with
      | Some quantity =>
          mk (app p)
             (after_call (UpdateQuantity (Z.of_nat row) (js_add quantity 1)) (ledger p))
             (cart_rows p)
      | None => p
      end
  | Minus row =>
      match rendered row p with
      | Some quantity =>
          mk (app p)
             (after_call (UpdateQuantity (Z.of_nat row) (js_add quantity (-1))) (ledger p))
             (cart_rows p)
      | None => p
      end
  | Trash row =>
      match rendered row p with
      | Some _ => renderCartModal (mk (app p) (removeItem (Z.of_nat row) (ledger p)) (cart_rows p))
      | None => p
      end
  | CloseCart => mk (app p) (ledger p) None
  end.

Definition run (ks : list Click) (p : t) : t :=
  fold_left (fun p k => step k p) ks p.

(** The quantities in the ledger and in the rows of the cart modal are all
    at least 1. *)
Definition quantities_positive (p : t) : Prop :=
  positive_quantities (ledger p)
  /\ forall rows, cart_rows p = Some rows -> Forall (fun q => 1 <= q) rows.

(** A freshly loaded page with an empty cart. *)
Definition fresh (products : list Product.t) : t :=
  mk (App.renderProducts (App.mk products true (Some App.Skeleton) None))
     (empty_cart (Some 0)) None.

End Page.

(** A product of the hosted database: its id is a string. *)
Definition linen_shirt : Product.t :=
  Product.mk (IdStr "6f1c2a") "Linen Shirt" "LINEN" 90 "assets/shirt.png".

Local Close Scope string_scope.

(** ** The customer profile and the address search *)

Local Open Scope string_scope.

(** [s] is truthy: not the empty string ([null] and [undefined] fields are
    modelled by the empty string where only their truth is read). *)
Definition nonempty (s : string) : bool := negb (String.eqb s "").

(** [a || b] on strings. *)
Definition or_else (a b : string) : string := if nonempty a then a else b.

(** Assigning [v] to the [value] of a [select] whose options have the values
    [options]: the option with that value gets selected; when there is none,
    no option is selected and the value reads as the empty string. *)
Definition select_assign (options : list string) (v : string) : string :=
  if existsb (String.eqb v) options then v else "".

Module Profile.

(** The signed-in user: the email and [user_metadata?.full_name]. *)
Record User : Type := mkUser {
  user_email : string;
  full_name : option string
}.

(** The answer [{ data, error }] of the query on the table [users]. *)
Record Answer : Type := mkAnswer {
  data : option Customer.t;
  error : bool
}.

(** [getUserProfile], given the signed-in user, if any, and the answer of
    the query; [None] is [null]. *)
Definition getUserProfile (user : option User) (answer : Answer) : option Customer.t :=
  match user with
  | None => None
  | Some u =>
      match error answer, data answer with
      | false, Some row => Some row
      | _, _ =>
          Some (Customer.mk (user_email u)
                  (match full_name u with Some n => n | None => "" end)
                  "" "" "" "")
      end
  end.

(** The pre-fill of the checkout form of the hosted copy, run when
    [getUserProfile] has answered: the new values of the fields, and whether
    the email field is read-only.  [options] are the values of the options
    of the country [select]. *)
Definition prefill (options : list string) (profile : option Customer.t)
  (form : Customer.t) (email_locked : bool) : Customer.t * bool :=
  match profile with
  | None => (form, email_locked)
  | Some p =>
      (Customer.mk
         (or_else (Customer.email p) (Customer.email form))
         (or_else (Customer.name p) (Customer.name form))
         (or_else (Customer.address p) (Customer.address form))
         (or_else (Customer.city p) (Customer.city form))
         (or_else (Customer.zip p) (Customer.zip form))
         (if nonempty (Customer.country p)
          then select_assign options (Customer.country p)
          else Customer.country form),
       nonempty (Customer.email p) || email_locked)
  end.

End Profile.

Module Address.

(** A result of the geocoder: [display_name], the fields of [address] the
    script reads, [lat] and [lon]. *)
Record Place : Type := mkPlace {
  place_display_name : string;
  road : string;
  house_number : string;
  place_city : string;
  town : string;
  village : string;
  county : string;
  place_state : string;
  postcode : string;
  place_country : string;
  place_lat : string;
  place_lon : string
}.

Record Suggestion : Type := mkSuggestion {
  display_name : string;
  street : string;
  city : string;
  state : string;
  zip : string;
  country : string;
  lat : string;
  lon : string
}.

(** White space and line terminators for [trim].  Among the code units
    below 256, which are those of the strings of the embedding, they are
    tab, line feed, vertical tab, form feed, carriage return, space and the
    no-break space U+00A0. *)
Definition is_space (a : ascii) : bool :=
  let n := nat_of_ascii a in
  Nat.eqb n 32 || (Nat.leb 9 n && Nat.leb n 13) || Nat.eqb n 160.

Fixpoint trim_start (s : string) : string :=
  match s with
  | EmptyString => EmptyString
  | String a rest => if is_space a then trim_start rest else s
  end.

Definition trim (s : string) : string :=
  String.rev (trim_start (String.rev (trim_start s))).

(** The suggestion made of a result. *)
Definition to_suggestion (item : Place) : Suggestion :=
  mkSuggestion
    (place_display_name item)
    (if nonempty (or_else (road item) (house_number item))
     then trim (house_number item ++ " " ++ road item)
     else "")
    (or_else (place_city item) (or_else (town item) (or_else (village item) (county item))))
    (place_state item)
    (postcode item)
    (place_country item)
    (place_lat item)
    (place_lon item).

(** A search: its number, the query and the country it was started with. *)
Record Request : Type := mkRequest {
  req_id : nat;
  req_query : string;
  req_country : string
}.

(** The validator attached to an address field: the timer set last, while
    it has not fired; the requests whose [fetch] has not settled; every
    [fetch] started so far, oldest first; [this.suggestions]; the list in
    the dropdown ([None] when it is hidden); the spinner. *)
Record t : Type := mk {
  timeout : option Request;
  fetching : list Request;
  fetched : list Request;
  suggestions : list Suggestion;
  dropdown : option (list Suggestion);
  spinner : bool;
  next_id : nat
}.

Definition initial : t := mk None [] [] [] None false 0.

Inductive Event : Type :=
| Input (query country : string)
| TimerFired
| Settled (id : nat) (answer : Outcome (list Place))
| ClickOutside.

Definition hide (v : t) : t :=
  mk (timeout v) (fetching v) (fetched v) (suggestions v) None (spinner v) (next_id v).

(** [search(query, country)] for a query of 3 characters or more: the timer
    set before, if it has not fired, is cleared (its search never settles),
    the spinner is shown and a new timer is set. *)
Definition search (query country : string) (v : t) : t :=
  mk (Some (mkRequest (next_id v) query country)) (fetching v) (fetched v)
     (suggestions v) (dropdown v) true (S (next_id v)).

(** The [input] listener of the address field. *)
Definition on_input (query country : string) (v : t) : t :=
  if (String.length query <? 3)%nat then hide v else search query country v.

(** The timer fires: the request goes out. *)
Definition on_timer (v : t) : t :=
  match timeout v with
  | Some r =>
      mk None (fetching v ++ [r]) (fetched v ++ [r]) (suggestions v) (dropdown v)
         (spinner v) (next_id v)
  | None => v
  end.

(** The [fetch] of request [id] settles: with results, which become
    [this.suggestions] and are shown when there are any; or with a failure,
    which is logged and counts as no result.  The spinner is hidden. *)
Definition on_settled (id : nat) (answer : Outcome (list Place)) (v : t) : t :=
  match List.find (fun r => Nat.eqb (req_id r) id) (fetching v) with
  | None => v
  | Some _ =>
      let remaining := List.filter (fun r => negb (Nat.eqb (req_id r) id)) (fetching v) in
      let suggestions' :=
        match answer with
        | Ret data => map to_suggestion data
        | Throw _ => suggestions v
        end in
      let results :=
        match answer with
        | Ret data => map to_suggestion data
        | Throw _ => []
        end in
      mk (timeout v) remaining (fetched v) suggestions'
         (match results with [] => None | _ :: _ => Some results end)
         false (next_id v)
  end.

Definition step (e : Event) (v : t) : t :=
  match e with
  | Input query country => on_input query country v
  | TimerFired => on_timer v
  | Settled id answer => on_settled id answer v
  | ClickOutside => hide v
  end.

Definition run (es : list Event) (v : t) : t :=
  fold_left (fun v e => step e v) es v.

(** What the checkout of the hosted copy does with the suggestion the user
    picks; [options] are the values of the options of the country
    [select]. *)
Definition on_select (options : list string) (selected : Suggestion)
  (form : Customer.t) : Customer.t :=
  Customer.mk
    (Customer.email form)
    (Customer.name form)
    (or_else (street selected) (display_name selected))
    (city selected)
    (zip selected)
    (if existsb (String.eqb (country selected)) options
     then country selected
     else Customer.country form).

(** How a script declares a global name at its top level: [var] and
    function declarations create a property of [window]; [let], [const] and
    [class] declarations create a global binding that is no property of
    [window]. *)
Inductive Declaration : Type :=
| VarDeclaration
| FunctionDeclaration
| LetDeclaration
| ConstDeclaration
| ClassDeclaration.

Definition on_window (d : Declaration) : bool :=
  match d with
  | VarDeclaration | FunctionDeclaration => true
  | LetDeclaration | ConstDeclaration | ClassDeclaration => false
  end.

(** [const addressValidator = new AddressValidator();], the last line of
    the script of the validator. *)
Definition addressValidator_declaration : Declaration := ConstDeclaration.

(** [if (window.addressValidator) addressValidator.attach(addrInput, ...)]
    in [showCheckoutModal] of the hosted copy: the validator attached to
    the address field of the checkout form, if one is.
    [window_addressValidator] is the truth of the guard. *)
Definition attach_checkout (window_addressValidator : bool) : option t :=
  if window_addressValidator then Some initial else None.

(** The user clicks row [k] of the dropdown of the address field: the
    callback given to [attach] runs on the suggestion of the row and the
    dropdown is hidden.  Without a validator there is no dropdown. *)
Definition pick (options : list string) (k : nat) (attached : option t)
  (form : Customer.t) : option t * Customer.t :=
  match attached with
  | None => (None, form)
  | Some v =>
      match dropdown v with
      | Some shown =>
          match shown !! k with
          | Some selected => (Some (hide v), on_select options selected form)
          | None => (Some v, form)
          end
      | None => (Some v, form)
      end
  end.

End Address.

(** A geocoder result with a road and a house number, and one with
    neither. *)
Definition main_street : Address.Place :=
  Address.mkPlace "12, Main Street, Springfield" "Main Street" "12" "Springfield"
    "" "" "" "Illinois" "62701" "United States" "39.8" "-89.6".

Definition some_lake : Address.Place :=
  Address.mkPlace "Some Lake, Lake County" "" "" "" "" "" "Lake County"
    "" "" "United States" "41.0" "-87.0".

Local Close Scope string_scope.

(** * Properties *)

Local Close Scope string_scope.
Local Open Scope Z_scope.

(** ** Strict equality *)

Lemma id_strict_eq_spec (a b : JsId) : id_strict_eq a b = true <-> a = b.
Proof.
  destruct a as [n|s], b as [m|t]; simpl; split; intros H; try discriminate.
  - apply Z.eqb_eq in H. congruence.
  - injection H as ->. apply Z.eqb_refl.
  - apply String.eqb_eq in H. congruence.
  - injection H as ->. apply String.eqb_refl.
Qed.

Lemma size_strict_eq_spec (a b : option string) : size_strict_eq a b = true <-> a = b.
Proof.
  destruct a as [s|], b as [t|]; simpl; split; intros H; try discriminate; trivial.
  - apply String.eqb_eq in H. congruence.
  - injection H as ->. apply String.eqb_refl.
Qed.

Lemma same_line_spec (pid : JsId) (size : option string) (item : Item.t) :
  same_line pid size item = true <-> Item.id item = pid /\ Item.size item = size.
Proof.
  unfold same_line. rewrite andb_true_iff, id_strict_eq_spec, size_strict_eq_spec.
  reflexivity.
Qed.

Lemma same_line_add_quantity (pid : JsId) (size : option string) (n : Z) (item : Item.t) :
  same_line pid size (Item.add_quantity n item) = same_line pid size item.
Proof. reflexivity. Qed.

(** ** The addition of doubles on integers *)

Lemma double_round_safe (z : Z) : safe_range z -> double_round z = z.
Proof.
  unfold safe_range, double_round. intros Hz.
  replace (Z.abs z <=? 2 ^ 53) with true; [reflexivity|].
  symmetry. apply Z.leb_le. lia.
Qed.

Lemma js_add_safe (a b : Z) : safe_range (a + b) -> js_add a b = a + b.
Proof. apply double_round_safe. Qed.

(** Rounding never takes a positive integer below 1. *)
Lemma double_round_positive (z : Z) : 1 <= z -> 1 <= double_round z.
Proof.
  intros Hz. unfold double_round.
  destruct (Z.abs z <=? 2 ^ 53) eqn:E; [exact Hz|].
  apply Z.leb_gt in E. rewrite Z.abs_eq in * by lia.
  rewrite Z.sgn_pos by lia. rewrite Z.mul_1_l.
  assert (53 <= Z.log2 z) as Hlog.
  { apply Z.log2_le_pow2; lia. }
  set (ulp := 2 ^ (Z.log2 z - 52)).
  assert (1 <= ulp) as Hulp.
  { subst ulp. assert (0 < 2 ^ (Z.log2 z - 52)) by (apply Z.pow_pos_nonneg; lia). lia. }
  assert (1 <= z / ulp) as Hq.
  { apply Z.div_le_lower_bound; [lia|]. rewrite Z.mul_1_r. subst ulp.
    transitivity (2 ^ Z.log2 z).
    - apply Z.pow_le_mono_r; lia.
    - apply Z.log2_spec. lia. }
  destruct (2 * (z mod ulp) <? ulp); [nia|].
  destruct (ulp <? 2 * (z mod ulp)); [nia|].
  destruct (Z.even (z / ulp)); nia.
Qed.

Lemma add_quantity_safe (n : Z) (item : Item.t) :
  safe_range (Item.quantity item + n) ->
  Item.add_quantity n item = Item.set_quantity (Item.quantity item + n) item.
Proof. intros H. unfold Item.add_quantity, Item.set_quantity. rewrite js_add_safe; auto. Qed.

(** ** What the ledger operations leave in [this.items] and in the store *)

Lemma items_updateCartUI (c : CartManager) : items (updateCartUI c) = items c.
Proof. unfold updateCartUI. destruct (cart_btn c); reflexivity. Qed.

Lemma items_saveToStorage (c : CartManager) : items (saveToStorage c) = items c.
Proof. unfold saveToStorage. rewrite items_updateCartUI. reflexivity. Qed.

Lemma stored_updateCartUI (c : CartManager) :
  threadheaven_cart (updateCartUI c) = threadheaven_cart c.
Proof. unfold updateCartUI. destruct (cart_btn c); reflexivity. Qed.

Lemma stored_saveToStorage (c : CartManager) :
  threadheaven_cart (saveToStorage c) = Some (JSON_stringify (items c)).
Proof. unfold saveToStorage. rewrite stored_updateCartUI. reflexivity. Qed.

Lemma items_addItem (product : Product.t) (quantity : Z) (size : option string)
  (c : CartManager) :
  items (addItem product quantity size c) = add_line product quantity size (items c).
Proof. unfold addItem. simpl. rewrite items_saveToStorage. reflexivity. Qed.

Lemma items_removeItem (index : Z) (c : CartManager) :
  items (removeItem index c) = splice1 index (items c).
Proof. unfold removeItem. rewrite items_saveToStorage. reflexivity. Qed.

Lemma items_clear (c : CartManager) : items (clear c) = [].
Proof. unfold clear. rewrite items_saveToStorage. reflexivity. Qed.

(** The totals of a cart with item A (price 55, twice) and item B (price
    120, once). *)
Example getTotal_two_lines : getTotal two_line_cart = 230.
Proof. reflexivity. Qed.

Example getItemCount_two_lines : getItemCount two_line_cart = 3.
Proof. reflexivity. Qed.

(** The same product in two sizes makes two line items. *)
Example addItem_two_sizes :
  length (items (calls [AddItem boxy_tee 2 (Some "M"%string);
                        AddItem boxy_tee 3 (Some "L"%string)] (empty_cart None))) = 2%nat.
Proof. reflexivity. Qed.


(** ** [findIndex] and the merge of [addItem] *)

Lemma findIndex_from_next {A : Type} (p : A -> bool) (l : list A) (i : Z) :
  0 <= i ->
  (findIndex_from p l i = -1 /\ findIndex_from p l (i + 1) = -1)
  \/ (i <= findIndex_from p l i
      /\ findIndex_from p l (i + 1) = findIndex_from p l i + 1).
Proof.
  revert i. induction l as [|x l IH]; intros i Hi; simpl.
  - left. split; reflexivity.
  - destruct (p x).
    + right. split; lia.
    + destruct (IH (i + 1) ltac:(lia)) as [[H1 H2]|[H1 H2]].
      * left. split; assumption.
      * right. split; [lia | assumption].
Qed.

(** [addItem] walks the array: it adds to the first line of the pair, or
    appends a new line at the end. *)
Lemma add_line_nil (product : Product.t) (quantity : Z) (size : option string) :
  add_line product quantity size [] = [new_item product quantity size].
Proof. reflexivity. Qed.

Lemma add_line_cons (product : Product.t) (quantity : Z) (size : option string)
  (item : Item.t) (l : list Item.t) :
  add_line product quantity size (item :: l) =
  if same_line (Product.id product) size item
  then Item.add_quantity quantity item :: l
  else item :: add_line product quantity size l.
Proof.
  unfold add_line, findIndex. simpl.
  destruct (same_line (Product.id product) size item) eqn:E; [reflexivity|].
  destruct (findIndex_from_next (same_line (Product.id product) size) l 0 ltac:(lia))
    as [[H1 H2]|[H1 H2]]; simpl in H2; rewrite H2.
  - rewrite H1. reflexivity.
  - replace (findIndex_from (same_line (Product.id product) size) l 0 + 1 >? -1)
      with true by (symmetry; apply Z.gtb_lt; lia).
    replace (findIndex_from (same_line (Product.id product) size) l 0 >? -1)
      with true by (symmetry; apply Z.gtb_lt; lia).
    rewrite Z2Nat.inj_add by lia. rewrite Nat.add_1_r. reflexivity.
Qed.

Lemma filter_add_line_other (pid : JsId) (size : option string)
  (product : Product.t) (quantity : Z) (s : option string) (l : list Item.t) :
  id_strict_eq (Product.id product) pid && size_strict_eq s size = false ->
  List.filter (same_line pid size) (add_line product quantity s l)
  = List.filter (same_line pid size) l.
Proof.
  intros Hother. induction l as [|item l IH].
  - rewrite add_line_nil. simpl. unfold same_line. simpl. rewrite Hother. reflexivity.
  - rewrite add_line_cons. destruct (same_line (Product.id product) s item) eqn:Ehit.
    + simpl. rewrite same_line_add_quantity.
      destruct (same_line pid size item) eqn:E; [|reflexivity].
      exfalso. apply same_line_spec in E as [E1 E2].
      apply same_line_spec in Ehit as [E3 E4].
      assert (id_strict_eq (Product.id product) pid && size_strict_eq s size = true)
        as Hboth; [|congruence].
      apply andb_true_iff. rewrite id_strict_eq_spec, size_strict_eq_spec.
      split; congruence.
    + simpl. rewrite IH. reflexivity.
Qed.

Lemma filter_add_line_same (product : Product.t) (quantity : Z) (size : option string)
  (l : list Item.t) :
  List.filter (same_line (Product.id product) size) (add_line product quantity size l)
  = match List.filter (same_line (Product.id product) size) l with
    | [] => [new_item product quantity size]
    | item :: rest => Item.add_quantity quantity item :: rest
    end.
Proof.
  induction l as [|item l IH].
  - rewrite add_line_nil. simpl. unfold same_line. simpl.
    rewrite (proj2 (id_strict_eq_spec _ _) eq_refl).
    rewrite (proj2 (size_strict_eq_spec _ _) eq_refl). reflexivity.
  - rewrite add_line_cons.
    destruct (same_line (Product.id product) size item) eqn:Ehit; simpl.
    + rewrite same_line_add_quantity, Ehit. reflexivity.
    + rewrite Ehit. exact IH.
Qed.

(** One [addItem], seen from the lines of a pair [(pid, size)]. *)
Lemma lines_of_addItem (pid : JsId) (size : option string)
  (product : Product.t) (quantity : Z) (s : option string) (c : CartManager) :
  lines_of pid size (addItem product quantity s c)
  = if id_strict_eq (Product.id product) pid && size_strict_eq s size
    then match lines_of pid size c with
         | [] => [new_item product quantity s]
         | item :: rest => Item.add_quantity quantity item :: rest
         end
    else lines_of pid size c.
Proof.
  unfold lines_of. rewrite items_addItem.
  destruct (id_strict_eq (Product.id product) pid && size_strict_eq s size) eqn:E.
  - apply andb_true_iff in E as [E1 E2].
    apply id_strict_eq_spec in E1. apply size_strict_eq_spec in E2. subst pid size.
    apply filter_add_line_same.
  - apply filter_add_line_other. exact E.
Qed.






(** ** Quantities stay positive *)

Lemma add_line_positive (product : Product.t) (quantity : Z) (size : option string)
  (l : list Item.t) :
  1 <= quantity ->
  Forall (fun item => 1 <= Item.quantity item) l ->
  Forall (fun item => 1 <= Item.quantity item) (add_line product quantity size l).
Proof.
  intros Hq. induction 1 as [|item l Hitem Hl IH].
  - rewrite add_line_nil. repeat constructor. simpl. exact Hq.
  - rewrite add_line_cons. destruct (same_line (Product.id product) size item).
    + constructor; [|exact Hl].
      simpl. apply double_round_positive. lia.
    + constructor; [exact Hitem | exact IH].
Qed.

Lemma after_call_positive (k : Call) (c : CartManager) :
  adds_at_least_one k -> positive_quantities c -> positive_quantities (after_call k c).
Proof.
  unfold positive_quantities, after_call. intros Hk Hc.
  destruct k as [p q s|i|i q|]; cbn [call adds_at_least_one] in *.
  - rewrite items_addItem. apply add_line_positive; assumption.
  - rewrite items_removeItem. apply Forall_delete. exact Hc.
  - unfold updateQuantity. destruct (q <=? 0) eqn:Eq.
    + rewrite items_removeItem. apply Forall_delete. exact Hc.
    + destruct (js_index (items c) i); [|exact Hc].
      rewrite items_saveToStorage. simpl.
      apply Forall_alter; [exact Hc|].
      intros item _ _. simpl. apply Z.leb_gt in Eq. lia.
  - rewrite items_clear. constructor.
Qed.

Lemma updateQuantity_nonpositive (index quantity : Z) (c : CartManager) :
  quantity <= 0 -> updateQuantity index quantity c = Ret (removeItem index c).
Proof.
  intros Hq. unfold updateQuantity.
  replace (quantity <=? 0) with true by (symmetry; apply Z.leb_le; exact Hq).
  reflexivity.
Qed.

(** C2, as the code has it.  From a cart whose quantities are all at least
    1 (the empty cart, for one), every sequence of [addItem] calls that
    request at least 1, of [removeItem], [updateQuantity] and [clear] calls
    leaves only quantities of at least 1; an [updateQuantity] to a quantity
    of 0 or less deletes the line item as [removeItem] does and stores no
    quantity. *)
Theorem calls_keep_quantities_positive (ks : list Call) (c : CartManager) :
  positive_quantities c ->
  Forall adds_at_least_one ks ->
  positive_quantities (calls ks c)
  /\ forall index quantity,
       quantity <= 0 ->
       after_call (UpdateQuantity index quantity) (calls ks c)
       = removeItem index (calls ks c).
Proof.
  intros Hc Hks. split.
  - revert c Hc. induction Hks as [|k ks Hk _ IH]; intros c Hc; simpl.
    + exact Hc.
    + apply IH. apply after_call_positive; assumption.
  - intros index quantity Hq. unfold after_call. simpl.
    rewrite updateQuantity_nonpositive by exact Hq. reflexivity.
Qed.

Lemma calls_keep_quantities_positive_witness :
  positive_quantities
    (calls [AddItem boxy_tee 1 None; AddItem boxy_tee 1 None;
            UpdateQuantity 0 1; AddItem tech_cargo 1 (Some "M"%string);
            UpdateQuantity 1 0; RemoveItem 3]
       (empty_cart (Some 0))).
Proof.
  apply (calls_keep_quantities_positive
           [AddItem boxy_tee 1 None; AddItem boxy_tee 1 None;
            UpdateQuantity 0 1; AddItem tech_cargo 1 (Some "M"%string);
            UpdateQuantity 1 0; RemoveItem 3]
           (empty_cart (Some 0))).
  - constructor.
  - repeat constructor; simpl; lia.
Defined.

(** C2, as stated, fails: [addItem] stores the quantity it is given, and a
    request for 0 units of a product of the catalogue leaves a line item
    with quantity 0. *)
Lemma addItem_stores_requested_zero :
  items (calls [AddItem boxy_tee 0 None] (empty_cart None))
  = [Item.mk (IdNum 4) "Boxy Tee" 55 "assets/pants/pants.png" "COTTON" None 0]
  /\ ~ positive_quantities (calls [AddItem boxy_tee 0 None] (empty_cart None)).
Proof.
  split; [reflexivity|].
  unfold positive_quantities. intros H. inversion H as [|item l Hq _]; subst.
  simpl in Hq. lia.
Qed.

(** ** [removeItem] and [updateQuantity] *)

Lemma delete_beyond {A : Type} (l : list A) (i : nat) :
  (length l <= i)%nat -> delete i l = l.
Proof.
  revert i. induction l as [|x l IH]; intros i Hi; [reflexivity|].
  destruct i as [|i]; simpl in *; [lia|].
  f_equal. apply IH. lia.
Qed.

Lemma splice1_valid {A : Type} (l : list A) (index : Z) :
  0 <= index < Z.of_nat (length l) -> splice1 index l = delete (Z.to_nat index) l.
Proof.
  intros H. unfold splice1, splice_start.
  replace (index <? 0) with false by (symmetry; apply Z.ltb_ge; lia).
  rewrite Z.min_l by lia. reflexivity.
Qed.

Lemma splice1_beyond {A : Type} (l : list A) (index : Z) :
  Z.of_nat (length l) <= index -> splice1 index l = l.
Proof.
  intros H. unfold splice1, splice_start.
  replace (index <? 0) with false by (symmetry; apply Z.ltb_ge; lia).
  rewrite Z.min_r by lia. apply delete_beyond. lia.
Qed.

Lemma splice1_from_end {A : Type} (l : list A) (index : Z) :
  - Z.of_nat (length l) <= index < 0 ->
  splice1 index l = delete (Z.to_nat (Z.of_nat (length l) + index)) l.
Proof.
  intros H. unfold splice1, splice_start.
  replace (index <? 0) with true by (symmetry; apply Z.ltb_lt; lia).
  rewrite Z.max_l by lia. reflexivity.
Qed.

Lemma splice1_clamped {A : Type} (l : list A) (index : Z) :
  index < - Z.of_nat (length l) -> splice1 index l = delete 0%nat l.
Proof.
  intros H. unfold splice1, splice_start.
  replace (index <? 0) with true by (symmetry; apply Z.ltb_lt; lia).
  rewrite Z.max_r by lia. reflexivity.
Qed.

(** C8. For a valid index [i] and a new quantity of 0 or less,
    [updateQuantity(i, newQuantity)] leaves the ledger (the line items, the
    stored cart and the badge) exactly as [removeItem(i)] does: without the
    line item at [i]. *)
Theorem updateQuantity_nonpositive_is_removeItem
  (c : CartManager) (i newQuantity : Z) :
  0 <= i < Z.of_nat (length (items c)) ->
  newQuantity <= 0 ->
  updateQuantity i newQuantity c = Ret (removeItem i c)
  /\ items (removeItem i c) = delete (Z.to_nat i) (items c)
  /\ threadheaven_cart (removeItem i c)
     = Some (JSON_stringify (delete (Z.to_nat i) (items c))).
Proof.
  intros Hi Hq. split; [apply updateQuantity_nonpositive; exact Hq|].
  unfold removeItem. rewrite items_saveToStorage, stored_saveToStorage. simpl.
  rewrite splice1_valid by exact Hi. split; reflexivity.
Qed.

Lemma updateQuantity_nonpositive_is_removeItem_witness :
  updateQuantity 1 0 two_line_cart = Ret (removeItem 1 two_line_cart)
  /\ items (removeItem 1 two_line_cart) = [new_item boxy_tee 2 None].
Proof.
  destruct (updateQuantity_nonpositive_is_removeItem two_line_cart 1 0)
    as (Hsame & Hitems & _).
  - simpl. lia.
  - lia.
  - split; [exact Hsame | exact Hitems].
Defined.

(** C10. [removeItem(index)] always writes the cart it leaves to the store.
    With an index at or beyond the number of line items it leaves the line
    items as they were.  With a negative index it deletes counting from the
    end: the line item at [length + index], and the first one when the count
    runs past the front. *)
Theorem removeItem_out_of_range (c : CartManager) (index : Z) :
  threadheaven_cart (removeItem index c)
  = Some (JSON_stringify (items (removeItem index c)))
  /\ (Z.of_nat (length (items c)) <= index ->
      items (removeItem index c) = items c
      /\ threadheaven_cart (removeItem index c) = Some (JSON_stringify (items c)))
  /\ (- Z.of_nat (length (items c)) <= index < 0 ->
      items (removeItem index c)
      = delete (Z.to_nat (Z.of_nat (length (items c)) + index)) (items c))
  /\ (index < - Z.of_nat (length (items c)) ->
      items (removeItem index c) = delete 0%nat (items c)).
Proof.
  unfold removeItem. rewrite items_saveToStorage, stored_saveToStorage. simpl.
  split; [reflexivity|]. split; [|split].
  - intros H. rewrite splice1_beyond by exact H. split; reflexivity.
  - apply splice1_from_end.
  - apply splice1_clamped.
Qed.

Lemma removeItem_out_of_range_witness :
  (items (removeItem 2 two_line_cart) = items two_line_cart
   /\ threadheaven_cart (removeItem 2 two_line_cart)
      = Some (JSON_stringify (items two_line_cart)))
  /\ items (removeItem (-1) two_line_cart) = [new_item boxy_tee 2 None]
  /\ items (removeItem (-5) two_line_cart) = [new_item tech_cargo 1 (Some "M"%string)].
Proof.
  split; [|split].
  - apply (proj1 (proj2 (removeItem_out_of_range two_line_cart 2))). simpl. lia.
  - apply (proj1 (proj2 (proj2 (removeItem_out_of_range two_line_cart (-1))))).
    simpl. lia.
  - apply (proj2 (proj2 (proj2 (removeItem_out_of_range two_line_cart (-5))))).
    simpl. lia.
Defined.

(** ** Loading the cart *)

Lemma js_to_item_item_to_js (item : Item.t) : js_to_item (item_to_js item) = Some item.
Proof. destruct item as [[n|s] nm p u m [sz|] q]; reflexivity. Qed.

(** Persist, then reload: the stored form of a cart reads back as the same
    sequence of line items. *)
Lemma as_cart_stringify (l : list Item.t) :
  as_cart (JArr (map item_to_js l)) = Some l.
Proof.
  unfold as_cart. apply mapM_Some.
  induction l as [|item l IH]; constructor.
  - apply js_to_item_item_to_js.
  - exact IH.
Qed.

(** C4, as the code has it.  In both copies loading never throws.  An
    absent key, an empty string and a content that [JSON.parse] rejects give
    the empty cart.  A content that [JSON.parse] accepts becomes
    [this.items] as parsed, whatever its shape (the first copy gives the
    empty cart for a parsed [null], on which its log line throws); so a
    stored cart is read back as the line items that were stored. *)
Theorem loadFromStorage_recovers_parse_failures :
  (forall saved,
      (exists v, Hosted.constructor saved = Ret v)
      /\ (exists v, Simulated.constructor saved = Ret v))
  /\ (Hosted.constructor None = Ret (JArr [])
      /\ Simulated.constructor None = Ret (JArr []))
  /\ (Hosted.constructor (Some EmptyText) = Ret (JArr [])
      /\ Simulated.constructor (Some EmptyText) = Ret (JArr []))
  /\ (Hosted.constructor (Some NotJson) = Ret (JArr [])
      /\ Simulated.constructor (Some NotJson) = Ret (JArr []))
  /\ (forall v,
        Hosted.constructor (Some (Json v))
        = Ret (match v with JNull => JArr [] | _ => v end)
        /\ Simulated.constructor (Some (Json v)) = Ret v)
  /\ (forall c : CartManager,
        Hosted.constructor (threadheaven_cart (saveToStorage c))
        = Ret (JArr (map item_to_js (items c)))
        /\ Simulated.constructor (threadheaven_cart (saveToStorage c))
           = Ret (JArr (map item_to_js (items c)))
        /\ as_cart (JArr (map item_to_js (items c))) = Some (items c)).
Proof.
  split; [|split; [|split; [|split; [|split]]]].
  - intros [[| |v]|]; split; try (eexists; reflexivity);
      destruct v; eexists; reflexivity.
  - split; reflexivity.
  - split; reflexivity.
  - split; reflexivity.
  - intros v. split; [destruct v; reflexivity | reflexivity].
  - intros c. rewrite stored_saveToStorage. repeat split.
    apply as_cart_stringify.
Qed.

(** C4, as stated, fails: the content [42] is not a sequence of line items,
    and both copies leave the number 42 in [this.items], which is neither a
    well-formed cart nor the empty cart. *)
Lemma loadFromStorage_keeps_parsed_number :
  malformed (Json (JNum 42)) = true
  /\ Hosted.constructor (Some (Json (JNum 42))) = Ret (JNum 42)
  /\ Simulated.constructor (Some (Json (JNum 42))) = Ret (JNum 42)
  /\ well_formed_cart (JNum 42) = false
  /\ JNum 42 <> JArr [].
Proof. repeat split. discriminate. Qed.

(** ** The checkout flow *)

Lemma rejects_iff_not_valid (email : string) :
  String.eqb email "" || negb (includes "@" email) = negb (valid_email email).
Proof.
  unfold valid_email. destruct (String.eqb email ""), (includes "@" email); reflexivity.
Qed.

Lemma set_cart_same {Order Suspended : Type} (w : World Order Suspended) :
  set_cart (cart w) w = w.
Proof. destruct w. reflexivity. Qed.

Lemma hosted_run_app (es1 es2 : list Hosted.Event) (w : Hosted.World) :
  Hosted.run (es1 ++ es2) w = Hosted.run es2 (Hosted.run es1 w).
Proof. apply fold_left_app. Qed.

Lemma simulated_run_app (es1 es2 : list Simulated.Event) (w : Simulated.World) :
  Simulated.run (es1 ++ es2) w = Simulated.run es2 (Simulated.run es1 w).
Proof. apply fold_left_app. Qed.

(** Calls of the ledger change the ledger and nothing else on the page. *)
Lemma hosted_run_ledger (ks : list Call) (w : Hosted.World) :
  Hosted.run (map Hosted.Ledger ks) w = set_cart (calls ks (cart w)) w.
Proof.
  revert w. induction ks as [|k ks IH]; intros w; simpl.
  - symmetry. apply set_cart_same.
  - unfold Hosted.run in IH. rewrite IH. reflexivity.
Qed.

Lemma simulated_run_ledger (ks : list Call) (w : Simulated.World) :
  Simulated.run (map Simulated.Ledger ks) w = set_cart (calls ks (cart w)) w.
Proof.
  revert w. induction ks as [|k ks IH]; intros w; simpl.
  - symmetry. apply set_cart_same.
  - unfold Simulated.run in IH. rewrite IH. reflexivity.
Qed.

(** A submission that passes the check of the email, with [db] defined:
    the button is disabled, the pending order is written, and one order,
    built from the ledger as it is now, goes to [db.createOrder]. *)
Lemma hosted_submit_accepted (w : Hosted.World) (now_pending now_id random : Z) :
  form_shown w = true ->
  valid_email (form_email w) = true ->
  db w = true ->
  exists order,
    sink (Hosted.step (Hosted.Submit now_pending now_id random) w) = sink w ++ [order]
    /\ Hosted.order_items order = items (cart w)
    /\ Hosted.amount order = getTotal (cart w)
    /\ Hosted.customer_email order = form_email w
    /\ submitting (Hosted.step (Hosted.Submit now_pending now_id random) w) = true
    /\ cart (Hosted.step (Hosted.Submit now_pending now_id random) w) = cart w.
Proof.
  unfold form_shown, form_email, submitting. intros Hform Hvalid Hdb.
  simpl. unfold submit_form.
  destruct (overlay w) as [o|] eqn:Ho; [|discriminate].
  destruct (content o) eqn:Hc; [|discriminate].
  destruct (btn_disabled o) eqn:Hb; [discriminate|].
  unfold Hosted.processPayPalCheckout.
  rewrite rejects_iff_not_valid, Hvalid. simpl. rewrite Hdb. simpl.
  eexists. split; [reflexivity|]. simpl. rewrite Ho. simpl. rewrite Hc.
  repeat split.
Qed.

(** While the button is disabled, what the user does adds no order and
    leaves the button disabled. *)
Lemma hosted_user_event_while_submitting (e : Hosted.Event) (w : Hosted.World) :
  submitting w = true ->
  hosted_user_event e ->
  submitting (Hosted.step e w) = true /\ sink (Hosted.step e w) = sink w.
Proof.
  unfold submitting. intros Hs He.
  destruct (overlay w) as [o|] eqn:Ho; [|discriminate].
  destruct (content o) eqn:Hc; [|discriminate].
  destruct e as [k| | |f|n1 n2 r|ok]; simpl in He; try contradiction; simpl.
  - rewrite Ho, Hc. auto.
  - rewrite Ho. simpl. rewrite Hc. auto.
  - unfold submit_form. rewrite Ho, Hc, Hs, Ho, Hc. auto.
Qed.

Lemma hosted_user_events_while_submitting (es : list Hosted.Event) (w : Hosted.World) :
  submitting w = true ->
  Forall hosted_user_event es ->
  submitting (Hosted.run es w) = true /\ sink (Hosted.run es w) = sink w.
Proof.
  intros Hs Hes. revert w Hs. induction Hes as [|e es He _ IH]; intros w Hs; simpl.
  - auto.
  - destruct (hosted_user_event_while_submitting e w Hs He) as [Hs' Hsink].
    destruct (IH _ Hs') as [Hs'' Hsink'']. unfold Hosted.run in *.
    split; [exact Hs''|]. rewrite Hsink''. exact Hsink.
Qed.

(** In the simulated copy a submission disables the button and starts the
    timer; it reads nothing from the form yet. *)
Lemma simulated_submit_started (w : Simulated.World) :
  form_shown w = true ->
  submitting (Simulated.step Simulated.Submit w) = true
  /\ inflight (Simulated.step Simulated.Submit w) = Some Simulated.Delay
  /\ sink (Simulated.step Simulated.Submit w) = sink w
  /\ db (Simulated.step Simulated.Submit w) = db w
  /\ cart (Simulated.step Simulated.Submit w) = cart w.
Proof.
  unfold form_shown, submitting. intros Hform. simpl. unfold submit_form.
  destruct (overlay w) as [o|] eqn:Ho; [|discriminate].
  destruct (content o) eqn:Hc; [|discriminate].
  destruct (btn_disabled o) eqn:Hb; [discriminate|].
  simpl. rewrite Ho. simpl. rewrite Hc. repeat split.
Qed.

Lemma simulated_user_event_while_submitting (e : Simulated.Event) (w : Simulated.World) :
  submitting w = true ->
  simulated_user_event e ->
  submitting (Simulated.step e w) = true
  /\ sink (Simulated.step e w) = sink w
  /\ inflight (Simulated.step e w) = inflight w
  /\ db (Simulated.step e w) = db w.
Proof.
  unfold submitting. intros Hs He.
  destruct (overlay w) as [o|] eqn:Ho; [|discriminate].
  destruct (content o) eqn:Hc; [|discriminate].
  destruct e as [k| |f| |a b|ok n]; simpl in He; try contradiction; simpl.
  - rewrite Ho, Hc. auto.
  - rewrite Ho. simpl. rewrite Hc. auto.
  - unfold submit_form. rewrite Ho, Hc, Hs, Ho, Hc. auto.
Qed.

Lemma simulated_user_events_while_submitting
  (es : list Simulated.Event) (w : Simulated.World) :
  submitting w = true ->
  Forall simulated_user_event es ->
  submitting (Simulated.run es w) = true
  /\ sink (Simulated.run es w) = sink w
  /\ inflight (Simulated.run es w) = inflight w
  /\ db (Simulated.run es w) = db w.
Proof.
  intros Hs Hes. revert w Hs. induction Hes as [|e es He _ IH]; intros w Hs; simpl.
  - auto.
  - destruct (simulated_user_event_while_submitting e w Hs He) as (Hs' & H1 & H2 & H3).
    destruct (IH _ Hs') as (Hs'' & H1' & H2' & H3'). unfold Simulated.run in *.
    rewrite H1', H2', H3'. auto.
Qed.

(** When the timer fires, one order is built from the form and the ledger
    as they are then, whatever the email. *)
Lemma simulated_delay_elapsed (w : Simulated.World) (now_created now_id : Z) :
  submitting w = true ->
  inflight w = Some Simulated.Delay ->
  db w = true ->
  exists order lines,
    sink (Simulated.step (Simulated.DelayElapsed now_created now_id) w)
    = sink w ++ [(order, lines)]
    /\ Simulated.customer_email order = form_email w
    /\ Simulated.total_amount order = getTotal (cart w)
    /\ lines = map (fun item => Simulated.mkOrderItem (Item.id item) (Item.quantity item)
                                  (Item.price item) (Item.size item))
                   (items (cart w))
    /\ submitting (Simulated.step (Simulated.DelayElapsed now_created now_id) w) = true.
Proof.
  unfold submitting, form_email. intros Hs Hin Hdb. simpl.
  unfold Simulated.processPayment_delay_elapsed. rewrite Hin.
  destruct (overlay w) as [o|] eqn:Ho; [|discriminate].
  rewrite Hdb. simpl. rewrite Ho. eexists _, _. repeat split. exact Hs.
Qed.

(** C9. With no line item in the cart, [checkout] returns at once in both
    copies: the page stays as it was, so no summary and no form is shown
    and no order is built. *)
Theorem checkout_with_empty_cart_stays_idle (hw : Hosted.World) (sw : Simulated.World) :
  items (cart hw) = [] ->
  items (cart sw) = [] ->
  Hosted.step Hosted.Checkout hw = hw
  /\ Simulated.step Simulated.Checkout sw = sw.
Proof.
  intros Hh Hs. simpl. unfold Hosted.checkout, Simulated.checkout.
  rewrite Hh, Hs. split; reflexivity.
Qed.

Lemma checkout_with_empty_cart_stays_idle_witness :
  Hosted.step Hosted.Checkout (Hosted.idle (empty_cart (Some 0)) true)
  = Hosted.idle (empty_cart (Some 0)) true
  /\ Simulated.step Simulated.Checkout (Simulated.idle (empty_cart (Some 0)) true)
     = Simulated.idle (empty_cart (Some 0)) true.
Proof.
  apply (checkout_with_empty_cart_stays_idle
           (Hosted.idle (empty_cart (Some 0)) true)
           (Simulated.idle (empty_cart (Some 0)) true)); reflexivity.
Defined.



(** ** The summary shown and the order built *)

Lemma hosted_enter (c : CartManager) (db_defined : bool) :
  items c <> [] ->
  Hosted.run [Hosted.Checkout; Hosted.DependenciesLoaded] (Hosted.idle c db_defined)
  = set_overlay (Some (render_overlay c)) (Hosted.idle c db_defined).
Proof.
  intros Hne. simpl. unfold Hosted.checkout. simpl.
  destruct (items c) as [|item l] eqn:E; [contradiction|]. reflexivity.
Qed.

Lemma simulated_enter (c : CartManager) (db_defined : bool) :
  items c <> [] ->
  Simulated.run [Simulated.Checkout] (Simulated.idle c db_defined)
  = set_overlay (Some (render_overlay c)) (Simulated.idle c db_defined).
Proof.
  intros Hne. simpl. unfold Simulated.checkout. simpl.
  destruct (items c) as [|item l] eqn:E; [contradiction|]. reflexivity.
Qed.

(** The summary on the page is the one rendered when the overlay was built:
    calls of the ledger, edits of the form and submissions leave it as it
    is. *)
Lemma hosted_user_event_keeps_summary (e : Hosted.Event) (w : Hosted.World) :
  hosted_user_event e -> shown_summary (Hosted.step e w) = shown_summary w.
Proof.
  destruct e as [k| | |f|n1 n2 r|ok]; simpl; try contradiction; intros _.
  - reflexivity.
  - unfold shown_summary. simpl. destruct (overlay w) as [o|]; reflexivity.
  - unfold shown_summary, submit_form.
    destruct (overlay w) as [o|] eqn:Ho; [|rewrite Ho; reflexivity].
    destruct (content o) eqn:Hc; [|rewrite Ho, Hc; reflexivity].
    destruct (btn_disabled o); [rewrite Ho, Hc; reflexivity|].
    unfold Hosted.processPayPalCheckout.
    destruct (String.eqb (Customer.email (fields o)) "" || _); simpl.
    + rewrite Ho, Hc. reflexivity.
    + destruct (db w); simpl; rewrite Ho; simpl; rewrite Hc; reflexivity.
Qed.

Lemma simulated_user_event_keeps_summary (e : Simulated.Event) (w : Simulated.World) :
  simulated_user_event e -> shown_summary (Simulated.step e w) = shown_summary w.
Proof.
  destruct e as [k| |f| |a b|ok n]; simpl; try contradiction; intros _.
  - reflexivity.
  - unfold shown_summary. simpl. destruct (overlay w) as [o|]; reflexivity.
  - unfold shown_summary, submit_form.
    destruct (overlay w) as [o|] eqn:Ho; [|rewrite Ho; reflexivity].
    destruct (content o) eqn:Hc; [|rewrite Ho, Hc; reflexivity].
    destruct (btn_disabled o); [rewrite Ho, Hc; reflexivity|].
    simpl. rewrite Ho. simpl. rewrite Hc. reflexivity.
Qed.

Lemma simulated_delay_keeps_summary (w : Simulated.World) (now_created now_id : Z) :
  db w = true ->
  shown_summary (Simulated.step (Simulated.DelayElapsed now_created now_id) w)
  = shown_summary w.
Proof.
  intros Hdb. simpl. unfold Simulated.processPayment_delay_elapsed.
  destruct (inflight w) as [[|email]|]; try reflexivity.
  destruct (overlay w) as [o|] eqn:Ho; [|reflexivity].
  rewrite Hdb. unfold shown_summary. simpl. rewrite Ho. reflexivity.
Qed.

(** C3, as the code has it.  The summary on the page is rendered once, from
    the cart as it is when the overlay is built, and calls of the ledger
    made afterwards do not change it.  The order is built at submission from
    the ledger as it is then: its items and its total are those of the cart
    after the calls made since checkout was entered (in the simulated copy,
    after those made until the timer fires). *)
Theorem order_is_built_from_cart_at_submission
  (c : CartManager) (ks ks' : list Call) (f : Customer.t)
  (now_pending now_id random now_created : Z) :
  items c <> [] ->
  valid_email (Customer.email f) = true ->
  (shown_summary (Hosted.run (hosted_session ks f now_pending now_id random)
                    (Hosted.idle c true))
   = Some (map render_line (items c), getTotal c)
   /\ exists order,
        sink (Hosted.run (hosted_session ks f now_pending now_id random)
                (Hosted.idle c true)) = [order]
        /\ Hosted.order_items order = items (calls ks c)
        /\ Hosted.amount order = getTotal (calls ks c))
  /\ (shown_summary (Simulated.run (simulated_session ks ks' f now_created now_id)
                       (Simulated.idle c true))
      = Some (map render_line (items c), getTotal c)
      /\ exists order lines,
           sink (Simulated.run (simulated_session ks ks' f now_created now_id)
                   (Simulated.idle c true)) = [(order, lines)]
           /\ lines = map (fun item =>
                             Simulated.mkOrderItem (Item.id item) (Item.quantity item)
                               (Item.price item) (Item.size item))
                          (items (calls ks' (calls ks c)))
           /\ Simulated.total_amount order = getTotal (calls ks' (calls ks c))).
Proof.
  intros Hne Hvalid. split.
  - unfold hosted_session.
    rewrite hosted_run_app, (hosted_enter c true Hne), hosted_run_app, hosted_run_ledger.
    set (w1 := set_cart _ _).
    change (Hosted.run [Hosted.Input f; Hosted.Submit now_pending now_id random] w1)
      with (Hosted.step (Hosted.Submit now_pending now_id random)
              (Hosted.step (Hosted.Input f) w1)).
    rewrite hosted_user_event_keeps_summary by exact I.
    split; [reflexivity|].
    destruct (hosted_submit_accepted (Hosted.step (Hosted.Input f) w1)
                now_pending now_id random)
      as (order & Hsink & Hitems & Hamount & _); try reflexivity.
    + exact Hvalid.
    + exists order. split; [exact Hsink|]. split; [exact Hitems | exact Hamount].
  - unfold simulated_session.
    rewrite simulated_run_app, (simulated_enter c true Hne), simulated_run_app,
      simulated_run_ledger.
    set (w1 := set_cart _ _).
    rewrite simulated_run_app.
    change (Simulated.run [Simulated.Input f; Simulated.Submit] w1)
      with (Simulated.step Simulated.Submit (Simulated.step (Simulated.Input f) w1)).
    set (w2 := Simulated.step Simulated.Submit _).
    rewrite simulated_run_app, simulated_run_ledger.
    set (w3 := set_cart _ w2).
    change (Simulated.run [Simulated.DelayElapsed now_created now_id] w3)
      with (Simulated.step (Simulated.DelayElapsed now_created now_id) w3).
    rewrite simulated_delay_keeps_summary by reflexivity.
    split; [reflexivity|].
    destruct (simulated_delay_elapsed w3 now_created now_id)
      as (order & lines & Hsink & _ & Hamount & Hlines & _); try reflexivity.
    exists order, lines. split; [exact Hsink|]. split; [exact Hlines | exact Hamount].
Qed.

Lemma order_is_built_from_cart_at_submission_witness :
  shown_summary hosted_added_during_checkout
  = Some (map render_line (items one_line_cart), getTotal one_line_cart)
  /\ exists order,
       sink hosted_added_during_checkout = [order]
       /\ Hosted.order_items order
          = items (calls [AddItem tech_cargo 1 (Some "M"%string)] one_line_cart)
       /\ Hosted.amount order
          = getTotal (calls [AddItem tech_cargo 1 (Some "M"%string)] one_line_cart).
Proof.
  apply (order_is_built_from_cart_at_submission one_line_cart
           [AddItem tech_cargo 1 (Some "M"%string)] [] alice
           1730540000123 1730540000124 7 1730540002500).
  - discriminate.
  - reflexivity.
Defined.

(** C3, as stated, fails.  Checkout is entered with one Boxy Tee (total 55),
    a Tech Cargo is added before the form is submitted: the summary on the
    page still shows the one line and 55, the order handed to the remote
    sink has both items and the amount 175. *)
Lemma order_differs_from_summary_shown :
  shown_summary hosted_added_during_checkout
  = Some ([mkLine "Boxy Tee" None 1 55], 55)
  /\ map Hosted.amount (sink hosted_added_during_checkout) = [175]
  /\ map Hosted.order_items (sink hosted_added_during_checkout)
     = [[new_item boxy_tee 1 None; new_item tech_cargo 1 (Some "M"%string)]].
Proof. repeat split. Qed.

(** ** Failures during a submission *)

Lemma hosted_submit_keeps_cart (w : Hosted.World) (now_pending now_id random : Z) :
  cart (Hosted.step (Hosted.Submit now_pending now_id random) w) = cart w.
Proof.
  simpl. unfold submit_form.
  destruct (overlay w) as [o|]; [|reflexivity].
  destruct (content o); [|reflexivity].
  destruct (btn_disabled o); [reflexivity|].
  unfold Hosted.processPayPalCheckout.
  destruct (String.eqb (Customer.email (fields o)) "" || _); [reflexivity|].
  simpl. destruct (db w); reflexivity.
Qed.

(** C5, as the code has it.  In the hosted copy a submission never touches
    the ledger before the remote sink has answered; when an exception is
    raised ([db] is not defined, or the sink rejects the order) the line
    items and the stored cart are what they were, the form can be submitted
    again and the error is shown; the ledger changes only when the sink has
    accepted the order, and then the cart is emptied and the success screen
    shown.  In the simulated copy the answer of the sink makes no
    difference: also after a rejection the success screen is shown and the
    cart is emptied. *)
Theorem failed_submission_keeps_cart_in_hosted_copy :
  (forall (w : Hosted.World) now_pending now_id random,
      cart (Hosted.step (Hosted.Submit now_pending now_id random) w) = cart w)
  /\ (forall (w : Hosted.World) now_pending now_id random,
        form_shown w = true ->
        valid_email (form_email w) = true ->
        db w = false ->
        form_shown (Hosted.step (Hosted.Submit now_pending now_id random) w) = true
        /\ sink (Hosted.step (Hosted.Submit now_pending now_id random) w) = sink w
        /\ alerts (Hosted.step (Hosted.Submit now_pending now_id random) w)
           = alerts w
             ++ ["There was an error processing your order. Please try again."%string])
  /\ (forall w : Hosted.World,
        submitting w = true ->
        inflight w <> None ->
        cart (Hosted.step (Hosted.OrderSettled false) w) = cart w
        /\ form_shown (Hosted.step (Hosted.OrderSettled false) w) = true
        /\ alerts (Hosted.step (Hosted.OrderSettled false) w)
           = alerts w
             ++ ["There was an error processing your order. Please try again."%string])
  /\ (forall (w : Hosted.World) ok,
        cart (Hosted.step (Hosted.OrderSettled ok) w) <> cart w ->
        ok = true /\ inflight w <> None)
  /\ (forall w : Hosted.World,
        submitting w = true ->
        inflight w <> None ->
        items (cart (Hosted.step (Hosted.OrderSettled true) w)) = []
        /\ threadheaven_cart (cart (Hosted.step (Hosted.OrderSettled true) w))
           = Some (JSON_stringify [])
        /\ success_shown (Hosted.step (Hosted.OrderSettled true) w) = true)
  /\ (forall (w : Simulated.World) email ok now_id,
        submitting w = true ->
        inflight w = Some (Simulated.Saving email) ->
        items (cart (Simulated.step (Simulated.OrderSettled ok now_id) w)) = []
        /\ threadheaven_cart (cart (Simulated.step (Simulated.OrderSettled ok now_id) w))
           = Some (JSON_stringify [])
        /\ success_shown (Simulated.step (Simulated.OrderSettled ok now_id) w) = true).
Proof.
  split; [exact hosted_submit_keeps_cart|].
  split; [|split; [|split; [|split]]].
  - intros w n1 n2 r Hform Hvalid Hdb. unfold form_shown, form_email in *.
    simpl. unfold submit_form.
    destruct (overlay w) as [o|] eqn:Ho; [|discriminate].
    destruct (content o) eqn:Hc; [|discriminate].
    destruct (btn_disabled o) eqn:Hb; [discriminate|].
    unfold Hosted.processPayPalCheckout.
    rewrite rejects_iff_not_valid, Hvalid. simpl. rewrite Hdb. simpl.
    rewrite Ho. simpl. rewrite Hc. repeat split.
  - intros w Hs Hin. unfold submitting, form_shown in *. simpl.
    unfold Hosted.processPayPalCheckout_settled.
    destruct (inflight w) as [k|]; [|contradiction].
    destruct (overlay w) as [o|] eqn:Ho; [|discriminate].
    destruct (content o) eqn:Hc; [|discriminate].
    simpl. rewrite Ho. simpl. rewrite Hc. repeat split.
  - intros w ok Hchanged. simpl in Hchanged.
    unfold Hosted.processPayPalCheckout_settled in Hchanged.
    destruct (inflight w) as [k|]; [|contradiction].
    destruct ok; [split; [reflexivity | discriminate]|].
    exfalso. apply Hchanged. reflexivity.
  - intros w Hs Hin. unfold submitting, success_shown in *. simpl.
    unfold Hosted.processPayPalCheckout_settled.
    destruct (inflight w) as [k|]; [|contradiction].
    destruct (overlay w) as [o|] eqn:Ho; [|discriminate].
    simpl. rewrite Ho. simpl.
    rewrite items_clear. unfold clear. rewrite stored_saveToStorage. repeat split.
  - intros w email ok now_id Hs Hin. unfold submitting, success_shown in *. simpl.
    unfold Simulated.processPayment_settled. rewrite Hin.
    unfold Simulated.processPayment_finish.
    destruct (overlay w) as [o|] eqn:Ho; [|discriminate].
    simpl. rewrite Ho. simpl.
    rewrite items_clear. unfold clear. rewrite stored_saveToStorage. repeat split.
Qed.

Lemma failed_submission_keeps_cart_in_hosted_copy_witness :
  (form_shown (Hosted.step (Hosted.Submit 1730540000123 1730540000124 7)
                 hosted_form_filled_no_db) = true
   /\ sink (Hosted.step (Hosted.Submit 1730540000123 1730540000124 7)
              hosted_form_filled_no_db) = sink hosted_form_filled_no_db
   /\ alerts (Hosted.step (Hosted.Submit 1730540000123 1730540000124 7)
                hosted_form_filled_no_db)
      = alerts hosted_form_filled_no_db
        ++ ["There was an error processing your order. Please try again."%string])
  /\ (cart (Hosted.step (Hosted.OrderSettled false) hosted_waiting) = cart hosted_waiting
      /\ form_shown (Hosted.step (Hosted.OrderSettled false) hosted_waiting) = true
      /\ alerts (Hosted.step (Hosted.OrderSettled false) hosted_waiting)
         = alerts hosted_waiting
           ++ ["There was an error processing your order. Please try again."%string])
  /\ (items (cart (Hosted.step (Hosted.OrderSettled true) hosted_waiting)) = []
      /\ threadheaven_cart (cart (Hosted.step (Hosted.OrderSettled true) hosted_waiting))
         = Some (JSON_stringify [])
      /\ success_shown (Hosted.step (Hosted.OrderSettled true) hosted_waiting) = true)
  /\ (items (cart (Simulated.step (Simulated.OrderSettled false 1730540002900)
                     simulated_saving)) = []
      /\ threadheaven_cart
           (cart (Simulated.step (Simulated.OrderSettled false 1730540002900)
                    simulated_saving))
         = Some (JSON_stringify [])
      /\ success_shown (Simulated.step (Simulated.OrderSettled false 1730540002900)
                          simulated_saving) = true).
Proof.
  destruct failed_submission_keeps_cart_in_hosted_copy
    as (_ & Hnodb & Hrejected & _ & Haccepted & Hsimulated).
  split; [|split; [|split]].
  - apply Hnodb; reflexivity.
  - apply Hrejected; [reflexivity | discriminate].
  - apply Haccepted; [reflexivity | discriminate].
  - apply (Hsimulated simulated_saving "alice@example.com"%string); reflexivity.
Defined.

(** C5, as stated, fails in the simulated copy: the remote sink rejects the
    order, and the cart, which held one Boxy Tee in memory and in the store,
    is emptied in both while the success screen is shown. *)
Lemma simulated_copy_clears_cart_after_rejection :
  items one_line_cart = [new_item boxy_tee 1 None]
  /\ threadheaven_cart one_line_cart = Some (JSON_stringify [new_item boxy_tee 1 None])
  /\ items (cart simulated_rejected) = []
  /\ threadheaven_cart (cart simulated_rejected) = Some (JSON_stringify [])
  /\ success_shown simulated_rejected = true
  /\ form_shown simulated_rejected = false.
Proof. repeat split. Qed.

(** ** The check of the email *)



(** ** The validation of the browser *)








(** * Further properties of the ledger *)

Lemma fold_left_sum_by {A : Type} (f : A -> Z) (l : list A) (a : Z) :
  fold_left (fun s x => s + f x) l a = a + sum_by f l.
Proof.
  revert a. induction l as [|x l IH]; intros a; simpl.
  - lia.
  - rewrite IH. lia.
Qed.

Lemma getItemCount_sum (c : CartManager) :
  getItemCount c = sum_by Item.quantity (items c).
Proof. unfold getItemCount. rewrite fold_left_sum_by. lia. Qed.

Lemma getTotal_sum (c : CartManager) :
  getTotal c = sum_by (fun item => Item.price item * Item.quantity item) (items c).
Proof. unfold getTotal. rewrite fold_left_sum_by. lia. Qed.

Lemma sum_by_app {A : Type} (f : A -> Z) (l1 l2 : list A) :
  sum_by f (l1 ++ l2) = sum_by f l1 + sum_by f l2.
Proof.
  unfold sum_by. induction l1 as [|x l1 IH]; simpl; [reflexivity|]. rewrite IH. lia.
Qed.

Lemma sum_by_delete {A : Type} (f : A -> Z) (l : list A) (i : nat) (x : A) :
  l !! i = Some x -> sum_by f (delete i l) = sum_by f l - f x.
Proof.
  unfold sum_by. revert i. induction l as [|y l IH]; intros i Hi; [discriminate|].
  destruct i as [|i]; simpl in *.
  - injection Hi as ->. lia.
  - pose proof (IH i Hi) as H. simpl in H. lia.
Qed.

Lemma items_getItemCount_saved (c : CartManager) :
  getItemCount (saveToStorage c) = getItemCount c.
Proof. unfold getItemCount. rewrite items_saveToStorage. reflexivity. Qed.

Lemma js_index_valid {A : Type} (l : list A) (i : Z) :
  0 <= i < Z.of_nat (length l) -> exists x, js_index l i = Some x /\ l !! Z.to_nat i = Some x.
Proof.
  intros Hi. unfold js_index.
  replace (i <? 0) with false by (symmetry; apply Z.ltb_ge; lia).
  destruct (lookup_lt_is_Some_2 l (Z.to_nat i)) as [x Hx]; [lia|].
  exists x. split; exact Hx.
Qed.

Lemma js_index_None {A : Type} (l : list A) (i : Z) :
  js_index l i = None <-> i < 0 \/ Z.of_nat (length l) <= i.
Proof.
  unfold js_index. destruct (i <? 0) eqn:E.
  - apply Z.ltb_lt in E. split; auto.
  - apply Z.ltb_ge in E. rewrite lookup_ge_None. split.
    + intros H. right. lia.
    + intros [H|H]; lia.
Qed.

(** ** One line item per pair *)

Lemma length_filter_delete {A : Type} (f : A -> bool) (l : list A) (i : nat) :
  (length (List.filter f (delete i l)) <= length (List.filter f l))%nat.
Proof.
  revert i. induction l as [|x l IH]; intros i; [destruct i; simpl; lia|].
  destruct i as [|i]; simpl.
  - destruct (f x); simpl; lia.
  - change (list_delete i l) with (delete i l).
    specialize (IH i). destruct (f x); simpl; lia.
Qed.

Lemma filter_alter_length {A : Type} (f : A -> bool) (g : A -> A) (l : list A) (i : nat) :
  (forall x, f (g x) = f x) ->
  length (List.filter f (alter g i l)) = length (List.filter f l).
Proof.
  intros Hg. revert i. induction l as [|x l IH]; intros i; [reflexivity|].
  destruct i as [|i]; simpl.
  - rewrite Hg. destruct (f x); reflexivity.
  - change (list_alter g i l) with (alter g i l).
    specialize (IH i). destruct (f x); simpl; lia.
Qed.

Lemma after_call_at_most_one_line (k : Call) (c : CartManager) :
  at_most_one_line c -> at_most_one_line (after_call k c).
Proof.
  unfold at_most_one_line, after_call. intros Hc pid size.
  destruct k as [p q s|i|i q|]; cbn [call].
  - rewrite lines_of_addItem. specialize (Hc pid size).
    destruct (id_strict_eq (Product.id p) pid && size_strict_eq s size); [|exact Hc].
    destruct (lines_of pid size c) as [|item rest]; simpl in *; lia.
  - unfold lines_of. rewrite items_removeItem. unfold splice1.
    etransitivity; [apply length_filter_delete | apply Hc].
  - unfold updateQuantity. destruct (q <=? 0).
    + unfold lines_of. rewrite items_removeItem. unfold splice1.
      etransitivity; [apply length_filter_delete | apply Hc].
    + destruct (js_index (items c) i); [|apply Hc].
      unfold lines_of. rewrite items_saveToStorage. simpl.
      rewrite filter_alter_length by reflexivity. apply Hc.
  - unfold lines_of. rewrite items_clear. simpl. lia.
Qed.

(** X1. The ledger never makes a second line item for a pair (product id,
    size): from a cart with at most one line per pair (the empty cart, for
    one), every sequence of [addItem], [removeItem], [updateQuantity] and
    [clear] calls leaves at most one line per pair. *)
Theorem calls_keep_at_most_one_line (ks : list Call) (c : CartManager) :
  at_most_one_line c -> at_most_one_line (calls ks c).
Proof.
  revert c. induction ks as [|k ks IH]; intros c Hc; simpl.
  - exact Hc.
  - apply IH. apply after_call_at_most_one_line. exact Hc.
Qed.

Lemma calls_keep_at_most_one_line_witness :
  at_most_one_line
    (calls [AddItem boxy_tee 1 None; AddItem tech_cargo 1 (Some "M"%string);
            AddItem boxy_tee 2 None; UpdateQuantity 0 5; RemoveItem (-1)]
       (empty_cart None)).
Proof.
  apply (calls_keep_at_most_one_line
           [AddItem boxy_tee 1 None; AddItem tech_cargo 1 (Some "M"%string);
            AddItem boxy_tee 2 None; UpdateQuantity 0 5; RemoveItem (-1)]
           (empty_cart None)).
  intros pid size. simpl. lia.
Defined.

(** ** Where [addItem] puts the quantity *)

Lemma add_line_no_match (product : Product.t) (quantity : Z) (size : option string)
  (l : list Item.t) :
  Forall (fun item => same_line (Product.id product) size item = false) l ->
  add_line product quantity size l = l ++ [new_item product quantity size].
Proof.
  induction 1 as [|item l Hitem _ IH]; [reflexivity|].
  rewrite add_line_cons, Hitem, IH. reflexivity.
Qed.

Lemma add_line_first_match (product : Product.t) (quantity : Z) (size : option string)
  (l : list Item.t) :
  forall (i : nat) (item : Item.t),
    l !! i = Some item ->
    same_line (Product.id product) size item = true ->
    (forall j item', (j < i)%nat -> l !! j = Some item' ->
                     same_line (Product.id product) size item' = false) ->
    add_line product quantity size l = <[i := Item.add_quantity quantity item]> l.
Proof.
  induction l as [|x l IH]; intros i item Hi Hhit Hbefore; [discriminate|].
  rewrite add_line_cons. destruct i as [|i]; simpl in Hi.
  - injection Hi as ->. rewrite Hhit. reflexivity.
  - rewrite (Hbefore 0%nat x ltac:(lia) eq_refl).
    simpl. f_equal. apply (IH i item Hi Hhit).
    intros j item' Hj Hl. apply (Hbefore (S j) item'); [lia | exact Hl].
Qed.

(** X2. [addItem] touches one place of the array: when no line item has the
    product id and the size, it appends the new line at the end; otherwise it
    adds the quantity to the first such line, also when later lines have the
    same pair, and leaves every other line, and the order, as they were. *)
Theorem addItem_appends_or_adds_to_first_line
  (product : Product.t) (quantity : Z) (size : option string) (c : CartManager) :
  (Forall (fun item => same_line (Product.id product) size item = false) (items c) ->
   items (addItem product quantity size c)
   = items c ++ [new_item product quantity size])
  /\ (forall (i : nat) (item : Item.t),
        items c !! i = Some item ->
        same_line (Product.id product) size item = true ->
        (forall j item', (j < i)%nat -> items c !! j = Some item' ->
                         same_line (Product.id product) size item' = false) ->
        items (addItem product quantity size c)
        = <[i := Item.add_quantity quantity item]> (items c)).
Proof.
  rewrite items_addItem. split.
  - apply add_line_no_match.
  - apply add_line_first_match.
Qed.

Lemma addItem_appends_or_adds_to_first_line_witness :
  items (addItem tech_cargo 1 None two_line_cart)
  = items two_line_cart ++ [new_item tech_cargo 1 None]
  /\ items (addItem tech_cargo 4 (Some "M"%string) two_line_cart)
     = <[1%nat := Item.add_quantity 4 (new_item tech_cargo 1 (Some "M"%string))]>
         (items two_line_cart).
Proof.
  split.
  - apply (proj1 (addItem_appends_or_adds_to_first_line tech_cargo 1 None two_line_cart)).
    repeat constructor.
  - apply (proj2 (addItem_appends_or_adds_to_first_line
                    tech_cargo 4 (Some "M"%string) two_line_cart) 1%nat).
    + reflexivity.
    + reflexivity.
    + intros j item' Hj Hl. destruct j as [|j]; [|lia].
      injection Hl as <-. reflexivity.
Defined.

Lemma sum_by_lower_bound {A : Type} (f : A -> Z) (b : Z) (l : list A) :
  Forall (fun x => b <= f x) l -> b * Z.of_nat (length l) <= sum_by f l.
Proof.
  unfold sum_by. induction 1 as [|x l Hx _ IH]; simpl; [lia|].
  change (foldr (fun x s => f x + s) 0 l) with (sum_by f l) in *. unfold sum_by in *. lia.
Qed.

(** ** Totals *)

Lemma sum_by_nonnegative {A : Type} (f : A -> Z) (l : list A) :
  Forall (fun x => 0 <= f x) l -> 0 <= sum_by f l.
Proof. intros H. pose proof (sum_by_lower_bound f 0 l H). lia. Qed.

Lemma sum_quantity_add_line (product : Product.t) (quantity : Z) (size : option string)
  (l : list Item.t) :
  Forall (fun item => 0 <= Item.quantity item) l ->
  0 <= quantity ->
  sum_by Item.quantity l + quantity <= 2 ^ 53 ->
  sum_by Item.quantity (add_line product quantity size l)
  = sum_by Item.quantity l + quantity.
Proof.
  intros Hl Hq. induction Hl as [|item l Hitem Hl IH]; intros Hsum.
  - rewrite add_line_nil. unfold sum_by. simpl. lia.
  - pose proof (sum_by_nonnegative Item.quantity l Hl) as Hrest.
    change (sum_by Item.quantity (item :: l))
      with (Item.quantity item + sum_by Item.quantity l) in *.
    rewrite add_line_cons. destruct (same_line (Product.id product) size item).
    + rewrite add_quantity_safe by (unfold safe_range; lia).
      change (sum_by Item.quantity
                (Item.set_quantity (Item.quantity item + quantity) item :: l))
        with (Item.quantity item + quantity + sum_by Item.quantity l).
      lia.
    + change (sum_by Item.quantity (item :: add_line product quantity size l))
        with (Item.quantity item + sum_by Item.quantity (add_line product quantity size l)).
      rewrite IH by lia. lia.
Qed.

(** X3. [addItem] raises the item count by the quantity requested, whether
    it adds to a line or appends one: for a cart of non-negative quantities
    and a non-negative request whose new count stays within 2^53, the range
    where the additions of [addItem] and of [getItemCount] are exact. *)
Theorem addItem_raises_count
  (product : Product.t) (quantity : Z) (size : option string) (c : CartManager) :
  nonnegative_quantities c ->
  0 <= quantity ->
  getItemCount c + quantity <= 2 ^ 53 ->
  getItemCount (addItem product quantity size c) = getItemCount c + quantity.
Proof.
  intros Hc Hq Hsum. rewrite !getItemCount_sum in *. rewrite items_addItem.
  apply sum_quantity_add_line; assumption.
Qed.

Lemma addItem_raises_count_witness :
  getItemCount (addItem tech_cargo 4 (Some "M"%string) two_line_cart)
  = getItemCount two_line_cart + 4.
Proof.
  apply (addItem_raises_count tech_cargo 4 (Some "M"%string) two_line_cart).
  - repeat constructor; simpl; lia.
  - lia.
  - vm_compute. discriminate.
Defined.

(** X4. For a valid index, [removeItem] takes the quantity of the removed
    line off the item count and one off the number of lines: for a cart of
    non-negative quantities whose count is within 2^53, the range where the
    additions of [getItemCount] are exact. *)
Theorem removeItem_lowers_count (c : CartManager) (index : Z) (item : Item.t) :
  nonnegative_quantities c ->
  getItemCount c <= 2 ^ 53 ->
  0 <= index ->
  items c !! Z.to_nat index = Some item ->
  getItemCount (removeItem index c) = getItemCount c - Item.quantity item
  /\ S (length (items (removeItem index c))) = length (items c).
Proof.
  intros _ _ Hpos Hitem.
  assert (0 <= index < Z.of_nat (length (items c))) as Hvalid.
  { apply lookup_lt_Some in Hitem. lia. }
  rewrite !getItemCount_sum, items_removeItem, splice1_valid by exact Hvalid.
  rewrite !(sum_by_delete _ _ _ _ Hitem). split; [reflexivity|].
  rewrite length_delete by eauto. apply lookup_lt_Some in Hitem. lia.
Qed.

Lemma removeItem_lowers_count_witness :
  getItemCount (removeItem 0 two_line_cart) = getItemCount two_line_cart - 2
  /\ S (length (items (removeItem 0 two_line_cart))) = length (items two_line_cart).
Proof.
  apply (removeItem_lowers_count two_line_cart 0 (new_item boxy_tee 2 None)).
  - repeat constructor; simpl; lia.
  - vm_compute. discriminate.
  - lia.
  - reflexivity.
Defined.

(** ** [updateQuantity] *)

(** X5. [updateQuantity] throws exactly when it is given a quantity above 0
    and an index outside the array (negative, or at or beyond the length);
    it throws a [TypeError], before anything is changed or written. *)
Theorem updateQuantity_throws_iff (c : CartManager) (index quantity : Z) :
  (exists e, updateQuantity index quantity c = Throw e)
  <-> 0 < quantity /\ (index < 0 \/ Z.of_nat (length (items c)) <= index).
Proof.
  unfold updateQuantity. destruct (quantity <=? 0) eqn:Eq.
  - apply Z.leb_le in Eq. split.
    + intros [e He]. discriminate.
    + intros [Hq _]. lia.
  - apply Z.leb_gt in Eq. destruct (js_index (items c) index) as [item|] eqn:Ei.
    + split.
      * intros [e He]. discriminate.
      * intros [_ Hout]. apply js_index_None in Hout. congruence.
    + split.
      * intros _. split; [exact Eq|]. apply js_index_None. exact Ei.
      * intros _. exists TypeError. reflexivity.
Qed.

(** X6. For a valid index and a quantity above 0, [updateQuantity] sets the
    quantity of that line and nothing else: the other fields of the line,
    the other lines and the number of lines stay, and the cart is written
    to the store. *)
Theorem updateQuantity_sets_quantity
  (c : CartManager) (index quantity : Z) (item : Item.t) :
  0 <= index ->
  items c !! Z.to_nat index = Some item ->
  0 < quantity ->
  exists c',
    updateQuantity index quantity c = Ret c'
    /\ items c' = <[Z.to_nat index := Item.set_quantity quantity item]> (items c)
    /\ length (items c') = length (items c)
    /\ threadheaven_cart c' = Some (JSON_stringify (items c')).
Proof.
  intros Hpos Hitem Hq. unfold updateQuantity.
  replace (quantity <=? 0) with false by (symmetry; apply Z.leb_gt; exact Hq).
  unfold js_index. replace (index <? 0) with false by (symmetry; apply Z.ltb_ge; lia).
  rewrite Hitem. eexists. split; [reflexivity|].
  rewrite stored_saveToStorage, items_saveToStorage. simpl.
  split; [|split; [|reflexivity]].
  - apply list_eq. intros j.
    rewrite list_lookup_alter, list_lookup_insert.
    destruct (decide (Z.to_nat index = j)) as [<-|Hne].
    + rewrite Hitem. rewrite decide_True by (split; [reflexivity|]; eapply lookup_lt_Some; eauto).
      reflexivity.
    + rewrite decide_False by (intros [? _]; congruence). reflexivity.
  - change (list_alter (Item.set_quantity quantity) (Z.to_nat index) (items c))
      with (alter (Item.set_quantity quantity) (Z.to_nat index) (items c)).
    apply length_alter.
Qed.

Lemma updateQuantity_sets_quantity_witness :
  exists c',
    updateQuantity 1 3 two_line_cart = Ret c'
    /\ items c'
       = <[1%nat := Item.set_quantity 3 (new_item tech_cargo 1 (Some "M"%string))]>
           (items two_line_cart)
    /\ length (items c') = length (items two_line_cart)
    /\ threadheaven_cart c' = Some (JSON_stringify (items c')).
Proof.
  apply (updateQuantity_sets_quantity two_line_cart 1 3
           (new_item tech_cargo 1 (Some "M"%string))).
  - lia.
  - reflexivity.
  - lia.
Defined.

Lemma updateQuantity_throws_iff_witness :
  exists e, updateQuantity 7 2 two_line_cart = Throw e.
Proof.
  apply (proj2 (updateQuantity_throws_iff two_line_cart 7 2)).
  split; [lia | right; simpl; lia].
Defined.

(** ** The badge, the store and the totals after every call *)

Lemma cart_btn_saveToStorage (c : CartManager) :
  cart_btn (saveToStorage c)
  = match cart_btn c with
    | Some _ => Some (getItemCount c)
    | None => None
    end.
Proof. unfold saveToStorage, updateCartUI. simpl. destruct (cart_btn c); reflexivity. Qed.

(** X7. On a page that has a cart button, every ledger operation that
    returns leaves the item count of the cart it leaves in the label of the
    button; on a page without the button it creates none. *)
Theorem call_updates_badge (k : Call) (c c' : CartManager) :
  call k c = Ret c' ->
  cart_btn c' = match cart_btn c with
                | Some _ => Some (getItemCount c')
                | None => None
                end.
Proof.
  destruct k as [p q s|i|i q|]; cbn [call].
  - intros [= <-]. unfold addItem. cbn [showNotification cart_btn].
    rewrite cart_btn_saveToStorage. simpl. destruct (cart_btn c); [|reflexivity].
    unfold getItemCount. simpl. rewrite items_saveToStorage. reflexivity.
  - intros [= <-]. unfold removeItem. rewrite cart_btn_saveToStorage. simpl.
    rewrite items_getItemCount_saved. reflexivity.
  - unfold updateQuantity. destruct (q <=? 0).
    + intros [= <-]. unfold removeItem. rewrite cart_btn_saveToStorage. simpl.
      rewrite items_getItemCount_saved. reflexivity.
    + destruct (js_index (items c) i); [|discriminate].
      intros [= <-]. rewrite cart_btn_saveToStorage. simpl.
      rewrite items_getItemCount_saved. reflexivity.
  - intros [= <-]. unfold clear. rewrite cart_btn_saveToStorage. simpl.
    rewrite items_getItemCount_saved. reflexivity.
Qed.

Lemma call_updates_badge_witness :
  cart_btn (addItem boxy_tee 2 None (empty_cart (Some 0))) = Some 2.
Proof.
  apply (call_updates_badge (AddItem boxy_tee 2 None) (empty_cart (Some 0))).
  reflexivity.
Defined.



(** X9. While every line item has a quantity of at least 1, the item count
    is at least the number of lines, so the count is 0 only for the empty
    cart; and with no negative price the total is not negative. *)
Theorem positive_cart_counts (c : CartManager) :
  positive_quantities c ->
  Z.of_nat (length (items c)) <= getItemCount c
  /\ (getItemCount c = 0 <-> items c = [])
  /\ (Forall (fun item => 0 <= Item.price item) (items c) -> 0 <= getTotal c).
Proof.
  unfold positive_quantities. intros Hpos.
  assert (Z.of_nat (length (items c)) <= getItemCount c) as Hlen.
  { rewrite getItemCount_sum.
    pose proof (sum_by_lower_bound Item.quantity 1 (items c) Hpos). lia. }
  split; [exact Hlen|]. split.
  - split.
    + intros Hzero. destruct (items c) as [|item l]; [reflexivity|]. simpl in Hlen. lia.
    + intros Hnil. unfold getItemCount. rewrite Hnil. reflexivity.
  - intros Hprice. rewrite getTotal_sum.
    assert (Forall (fun item => 0 <= Item.price item * Item.quantity item) (items c)) as H.
    { rewrite Forall_forall in *. intros item Hin.
      specialize (Hpos item Hin). specialize (Hprice item Hin). simpl in *. nia. }
    pose proof (sum_by_lower_bound _ 0 (items c) H). lia.
Qed.

Lemma positive_cart_counts_witness :
  Z.of_nat (length (items two_line_cart)) <= getItemCount two_line_cart
  /\ (getItemCount two_line_cart = 0 <-> items two_line_cart = [])
  /\ (Forall (fun item => 0 <= Item.price item) (items two_line_cart) ->
      0 <= getTotal two_line_cart).
Proof.
  apply (positive_cart_counts two_line_cart).
  repeat constructor; simpl; lia.
Defined.

(** * The storefront page *)

Lemma find_all_false {A : Type} (f : A -> bool) (l : list A) :
  (forall x, x ∈ l -> f x = false) -> List.find f l = None.
Proof.
  induction l as [|x l IH]; intros H; [reflexivity|]. simpl.
  rewrite (H x) by constructor. apply IH. intros y Hy. apply H. constructor. exact Hy.
Qed.

Lemma find_by_id (l : list Product.t) :
  forall (n : nat) (p : Product.t),
    l !! n = Some p ->
    NoDup (map Product.id l) ->
    List.find (fun q => id_strict_eq (Product.id q) (Product.id p)) l = Some p.
Proof.
  induction l as [|x l IH]; intros n p Hn Hnodup; [discriminate|].
  simpl. destruct n as [|n]; simpl in Hn.
  - injection Hn as ->. rewrite (proj2 (id_strict_eq_spec _ _) eq_refl). reflexivity.
  - simpl in Hnodup. apply NoDup_cons in Hnodup as [Hx Hl].
    destruct (id_strict_eq (Product.id x) (Product.id p)) eqn:E.
    + exfalso. apply id_strict_eq_spec in E. apply Hx. rewrite E.
      apply list_elem_of_fmap. exists p. split; [reflexivity|].
      apply list_elem_of_lookup. eauto.
    + apply (IH n p Hn Hl).
Qed.

(** With only numeric ids in the catalogue, the string a card passes to
    [showProductModal] is strictly equal to no id. *)
Lemma showProductModal_string_among_numbers (s : string) (a : App.t) :
  (forall q, q ∈ App.products a -> exists m, Product.id q = IdNum m) ->
  App.showProductModal (IdStr s) a = a.
Proof.
  intros Hnum. unfold App.showProductModal.
  rewrite find_all_false; [reflexivity|].
  intros q Hq. destruct (Hnum q Hq) as [m ->]. reflexivity.
Qed.

Lemma click_card_numeric_ids (n : nat) (a : App.t) :
  (forall q, q ∈ App.products a -> exists m, Product.id q = IdNum m) ->
  App.click_card n a = a.
Proof.
  intros Hnum. unfold App.click_card.
  destruct (App.grid a) as [[|cards]|]; try reflexivity.
  destruct (cards !! n); [|reflexivity].
  apply showProductModal_string_among_numbers. exact Hnum.
Qed.

(** X10. A click on a product card passes the id of the product as a string
    to [showProductModal], which compares ids with [===].  So in a catalogue
    whose ids are all numbers no click opens the product modal; a card of a
    product whose id is a string opens the modal on that product (ids being
    distinct), with no size chosen. *)
Theorem card_click_opens_string_ids_only (a : App.t) (n : nat) (p : Product.t) :
  App.grid a = Some (App.Cards (map App.render_card (App.products a))) ->
  App.products a !! n = Some p ->
  ((forall q, q ∈ App.products a -> exists m, Product.id q = IdNum m) ->
   App.click_card n a = a)
  /\ (forall s,
        Product.id p = IdStr s ->
        NoDup (map Product.id (App.products a)) ->
        App.modal (App.click_card n a) = Some (App.mkModal p None)).
Proof.
  intros Hgrid Hn. split; [apply click_card_numeric_ids|].
  intros s Hid Hnodup. unfold App.click_card. rewrite Hgrid.
  rewrite list_lookup_fmap, Hn. simpl. rewrite Hid. simpl.
  unfold App.showProductModal. rewrite <- Hid.
  rewrite (find_by_id _ n p Hn Hnodup). reflexivity.
Qed.

Lemma card_click_opens_string_ids_only_witness :
  App.click_card 3 (Page.app (Page.fresh App.getStaticProducts))
  = Page.app (Page.fresh App.getStaticProducts)
  /\ App.modal (App.click_card 0 (Page.app (Page.fresh [linen_shirt; boxy_tee])))
     = Some (App.mkModal linen_shirt None).
Proof.
  split.
  - apply (proj1 (card_click_opens_string_ids_only
                    (Page.app (Page.fresh App.getStaticProducts)) 3 boxy_tee
                    eq_refl eq_refl)).
    intros q Hq. simpl in Hq.
    repeat (apply elem_of_cons in Hq as [->|Hq]; [eexists; reflexivity|]).
    inversion Hq.
  - apply (proj2 (card_click_opens_string_ids_only
                    (Page.app (Page.fresh [linen_shirt; boxy_tee])) 0 linen_shirt
                    eq_refl eq_refl) "6f1c2a"%string).
    + reflexivity.
    + simpl. repeat constructor; intros H; inversion H; subst;
        try discriminate. inversion H2.
Defined.

(** X11. When the catalogue cannot be loaded, [init] shows the six built-in
    products.  Their ids are numbers, so no card of the grid opens the
    product modal; and once initialised, a later [init] changes nothing,
    whatever the database answers then. *)
Theorem init_fallback_catalogue_cannot_be_opened (a : App.t) (e : JsError) :
  App.initialized a = false ->
  App.grid a <> None ->
  App.products (App.init (Throw e) a) = App.getStaticProducts
  /\ App.grid (App.init (Throw e) a)
     = Some (App.Cards (map App.render_card App.getStaticProducts))
  /\ (forall n, App.click_card n (App.init (Throw e) a) = App.init (Throw e) a)
  /\ (forall answer, App.init answer (App.init (Throw e) a) = App.init (Throw e) a).
Proof.
  intros Hinit Hgrid. unfold App.init. rewrite Hinit.
  destruct a as [ps i [g|] m]; [|contradiction]. simpl in *.
  split; [reflexivity|]. split; [reflexivity|]. split; [|reflexivity].
  intros n. apply click_card_numeric_ids. simpl.
  intros q Hq. unfold App.getStaticProducts in Hq.
  repeat (apply elem_of_cons in Hq as [->|Hq]; [eexists; reflexivity|]).
  inversion Hq.
Qed.

Lemma init_fallback_catalogue_cannot_be_opened_witness :
  App.products (App.init (Throw ReferenceError) (App.mk [] false (Some App.Skeleton) None))
  = App.getStaticProducts
  /\ App.click_card 1
       (App.init (Throw ReferenceError) (App.mk [] false (Some App.Skeleton) None))
     = App.init (Throw ReferenceError) (App.mk [] false (Some App.Skeleton) None).
Proof.
  destruct (init_fallback_catalogue_cannot_be_opened
              (App.mk [] false (Some App.Skeleton) None) ReferenceError)
    as (Hproducts & _ & Hclick & _).
  - reflexivity.
  - discriminate.
  - split; [exact Hproducts | apply Hclick].
Defined.

(** ** The cart modal *)

Lemma saveToStorage_set_items_twice (l : list Item.t) (c : CartManager) :
  saveToStorage (set_items l (saveToStorage (set_items l c)))
  = saveToStorage (set_items l c).
Proof.
  unfold saveToStorage, updateCartUI, set_items. simpl.
  destruct (cart_btn c); reflexivity.
Qed.

Lemma after_updateQuantity_twice (index quantity : Z) (c : CartManager) :
  0 < quantity ->
  after_call (UpdateQuantity index quantity)
    (after_call (UpdateQuantity index quantity) c)
  = after_call (UpdateQuantity index quantity) c.
Proof.
  intros Hq. unfold after_call. cbn [call]. unfold updateQuantity.
  replace (quantity <=? 0) with false by (symmetry; apply Z.leb_gt; exact Hq).
  destruct (js_index (items c) index) as [item|] eqn:Ei.
  - rewrite items_saveToStorage. cbn [set_items items].
    unfold js_index in *. destruct (index <? 0); [discriminate|].
    rewrite list_lookup_alter_eq, Ei. simpl.
    rewrite list_alter_alter_eq.
    rewrite (list_alter_ext _ (Item.set_quantity quantity) _ (items c) (Z.to_nat index))
      by (intros; reflexivity).
    apply saveToStorage_set_items_twice.
  - rewrite Ei. reflexivity.
Qed.

Lemma items_after_updateQuantity (index quantity : Z) (item : Item.t) (c : CartManager) :
  0 <= index ->
  items c !! Z.to_nat index = Some item ->
  0 < quantity ->
  items (after_call (UpdateQuantity index quantity) c)
  = <[Z.to_nat index := Item.set_quantity quantity item]> (items c).
Proof.
  intros Hpos Hitem Hq. unfold after_call. cbn [call]. unfold updateQuantity.
  replace (quantity <=? 0) with false by (symmetry; apply Z.leb_gt; exact Hq).
  unfold js_index. replace (index <? 0) with false by (symmetry; apply Z.ltb_ge; lia).
  rewrite Hitem, items_saveToStorage. cbn [set_items items].
  apply list_eq. intros j.
  rewrite list_lookup_alter, list_lookup_insert.
  destruct (decide (Z.to_nat index = j)) as [<-|Hne].
  - rewrite Hitem.
    rewrite decide_True by (split; [reflexivity|]; eapply lookup_lt_Some; eauto).
    reflexivity.
  - rewrite decide_False by (intros [? _]; congruence). reflexivity.
Qed.

(** X12. The rows of the cart modal are not rendered again after [+] or
    [-]: their buttons keep the index and the quantity of the time of
    rendering.  For a row rendered with a quantity from 0 to below 2^53,
    [+] sets the quantity of the line now at that index to one above the
    rendered quantity, whatever the line holds, and leaves the other lines;
    pressing it any number of times leaves the page as pressing it once
    does.  For a row rendered with a quantity above 1, [-] sets the line to
    one below the rendered quantity; and pressing [-] twice on a row
    rendered with quantity 1 deletes the line at that index twice, the
    second time the line that moved up. *)
Theorem cart_modal_rows_are_stale (p : Page.t) (row : nat) (quantity : Z) :
  Page.rendered row p = Some quantity ->
  (0 <= quantity < 2 ^ 53 ->
   (forall item,
       items (Page.ledger p) !! row = Some item ->
       items (Page.ledger (Page.step (Page.Plus row) p))
       = <[row := Item.set_quantity (quantity + 1) item]> (items (Page.ledger p)))
   /\ forall n,
        Nat.iter (S n) (Page.step (Page.Plus row)) p = Page.step (Page.Plus row) p)
  /\ (1 < quantity <= 2 ^ 53 ->
      forall item,
        items (Page.ledger p) !! row = Some item ->
        items (Page.ledger (Page.step (Page.Minus row) p))
        = <[row := Item.set_quantity (quantity - 1) item]> (items (Page.ledger p)))
  /\ (quantity = 1 ->
      Page.ledger (Page.step (Page.Minus row) (Page.step (Page.Minus row) p))
      = removeItem (Z.of_nat row) (removeItem (Z.of_nat row) (Page.ledger p))).
Proof.
  intros Hrow. split; [|split].
  - intros Hq.
    assert (js_add quantity 1 = quantity + 1) as Hadd.
    { apply js_add_safe. unfold safe_range. lia. }
    split.
    + intros item Hitem. unfold Page.step. rewrite Hrow, Hadd. simpl.
      rewrite (items_after_updateQuantity _ _ item); rewrite ?Nat2Z.id; auto; lia.
    + intros n. induction n as [|n IH]; [reflexivity|].
      change (Nat.iter (S (S n)) (Page.step (Page.Plus row)) p)
        with (Page.step (Page.Plus row) (Nat.iter (S n) (Page.step (Page.Plus row)) p)).
      rewrite IH. unfold Page.step, Page.rendered in *. simpl. rewrite Hrow. simpl.
      rewrite Hrow, Hadd. rewrite after_updateQuantity_twice by lia. reflexivity.
  - intros Hq item Hitem.
    assert (js_add quantity (-1) = quantity - 1) as Hadd.
    { unfold js_add. rewrite double_round_safe; [lia|]. unfold safe_range. lia. }
    unfold Page.step. rewrite Hrow, Hadd. simpl.
    rewrite (items_after_updateQuantity _ _ item); rewrite ?Nat2Z.id; auto; lia.
  - intros ->. unfold Page.step, Page.rendered in *. rewrite Hrow. simpl. rewrite Hrow.
    reflexivity.
Qed.

Lemma cart_modal_rows_are_stale_witness :
  items (Page.ledger
           (Page.step (Page.Plus 0)
              (Page.renderCartModal (Page.mk (App.mk [] true None None) two_line_cart None))))
  = <[0%nat := Item.set_quantity 3 (new_item boxy_tee 2 None)]> (items two_line_cart)
  /\ Nat.iter 3 (Page.step (Page.Plus 0))
       (Page.renderCartModal (Page.mk (App.mk [] true None None) two_line_cart None))
     = Page.step (Page.Plus 0)
         (Page.renderCartModal (Page.mk (App.mk [] true None None) two_line_cart None))
  /\ items (Page.ledger
              (Page.step (Page.Minus 0)
                 (Page.renderCartModal
                    (Page.mk (App.mk [] true None None) two_line_cart None))))
     = <[0%nat := Item.set_quantity 1 (new_item boxy_tee 2 None)]> (items two_line_cart)
  /\ items (Page.ledger
             (Page.step (Page.Minus 1)
                (Page.step (Page.Minus 1)
                   (Page.renderCartModal
                      (Page.mk (App.mk [] true None None)
                         (addItem onyx_jacket 1 None two_line_cart) None)))))
     = [new_item boxy_tee 2 None].
Proof.
  split; [|split; [|split]].
  - apply (proj1 (proj1 (cart_modal_rows_are_stale
                    (Page.renderCartModal
                       (Page.mk (App.mk [] true None None) two_line_cart None))
                    0 2 eq_refl) ltac:(lia))).
    reflexivity.
  - apply (proj2 (proj1 (cart_modal_rows_are_stale
                    (Page.renderCartModal
                       (Page.mk (App.mk [] true None None) two_line_cart None))
                    0 2 eq_refl) ltac:(lia))).
  - apply (proj1 (proj2 (cart_modal_rows_are_stale
                    (Page.renderCartModal
                       (Page.mk (App.mk [] true None None) two_line_cart None))
                    0 2 eq_refl)) ltac:(lia)).
    reflexivity.
  - rewrite (proj2 (proj2 (cart_modal_rows_are_stale
                      (Page.renderCartModal
                         (Page.mk (App.mk [] true None None)
                            (addItem onyx_jacket 1 None two_line_cart) None))
                      1 1 eq_refl)) eq_refl).
    reflexivity.
Defined.

Lemma step_quantities_positive (k : Page.Click) (p : Page.t) :
  Page.quantities_positive p -> Page.quantities_positive (Page.step k p).
Proof.
  unfold Page.quantities_positive. intros [Hledger Hrows].
  assert (forall c, positive_quantities c ->
                    Forall (fun q => 1 <= q) (map Item.quantity (items c))) as Hrender.
  { intros c Hc. unfold positive_quantities in Hc. induction Hc; constructor; auto. }
  destruct k as [n|k| | | |row|row|row| ]; simpl; try (split; assumption).
  - destruct (App.modal (Page.app p)) as [m|]; [|split; assumption]. simpl.
    split; [|exact Hrows].
    apply (after_call_positive (AddItem (App.modal_product m) 1 (App.selectedSize m)));
      [simpl; lia | exact Hledger].
  - split; [exact Hledger|]. intros rows [= <-]. apply Hrender. exact Hledger.
  - destruct (Page.rendered row p); [|split; assumption]. simpl.
    split; [|exact Hrows]. apply after_call_positive; [exact I | exact Hledger].
  - destruct (Page.rendered row p); [|split; assumption]. simpl.
    split; [|exact Hrows]. apply after_call_positive; [exact I | exact Hledger].
  - destruct (Page.rendered row p); [|split; assumption]. simpl.
    assert (positive_quantities (removeItem (Z.of_nat row) (Page.ledger p))) as H.
    { apply (after_call_positive (RemoveItem (Z.of_nat row))); [exact I | exact Hledger]. }
    split; [exact H|]. intros rows [= <-]. apply Hrender. exact H.
  - split; [exact Hledger|]. intros rows Hnone. discriminate.
Qed.

(** X13. Whatever is clicked on the page (product cards, size buttons, add
    to cart, the cart button, and [+], [-] and the bin of the rows of the
    cart modal, stale or not), every line item keeps a quantity of at least
    1: the page only ever requests one unit from [addItem]. *)
Theorem clicks_keep_quantities_positive (ks : list Page.Click) (p : Page.t) :
  Page.quantities_positive p ->
  Page.quantities_positive (Page.run ks p).
Proof.
  revert p. induction ks as [|k ks IH]; intros p Hp; simpl.
  - exact Hp.
  - apply IH. apply step_quantities_positive. exact Hp.
Qed.

Lemma clicks_keep_quantities_positive_witness :
  Page.quantities_positive
    (Page.run [Page.Card 0; Page.Size 2; Page.AddToCart; Page.Card 0; Page.AddToCart;
               Page.CartButton; Page.Minus 0; Page.Minus 0; Page.Plus 1; Page.Trash 0]
       (Page.fresh [linen_shirt])).
Proof.
  apply (clicks_keep_quantities_positive
           [Page.Card 0; Page.Size 2; Page.AddToCart; Page.Card 0; Page.AddToCart;
            Page.CartButton; Page.Minus 0; Page.Minus 0; Page.Plus 1; Page.Trash 0]
           (Page.fresh [linen_shirt])).
  split; [constructor | intros rows H; discriminate].
Defined.

(** * Further properties of the checkout *)

Lemma hosted_submit_suspended (w : Hosted.World) (now_pending now_id random : Z) :
  form_shown w = true ->
  valid_email (form_email w) = true ->
  db w = true ->
  exists order,
    sink (Hosted.step (Hosted.Submit now_pending now_id random) w) = sink w ++ [order]
    /\ inflight (Hosted.step (Hosted.Submit now_pending now_id random) w)
       = Some (Hosted.mkSuspended (Hosted.order_id order)
                 (match overlay w with Some o => fields o | None => empty_form end))
    /\ Hosted.customer_email order = form_email w
    /\ Hosted.order_items order = items (cart w)
    /\ submitting (Hosted.step (Hosted.Submit now_pending now_id random) w) = true.
Proof.
  unfold form_shown, form_email, submitting. intros Hform Hvalid Hdb.
  simpl. unfold submit_form.
  destruct (overlay w) as [o|] eqn:Ho; [|discriminate].
  destruct (content o) eqn:Hc; [|discriminate].
  destruct (btn_disabled o) eqn:Hb; [discriminate|].
  unfold Hosted.processPayPalCheckout.
  rewrite rejects_iff_not_valid, Hvalid. simpl. rewrite Hdb. simpl.
  eexists. split; [reflexivity|]. simpl. rewrite Ho. simpl. rewrite Hc.
  repeat split.
Qed.

Lemma hosted_user_event_keeps_inflight (e : Hosted.Event) (w : Hosted.World) :
  submitting w = true ->
  hosted_user_event e ->
  inflight (Hosted.step e w) = inflight w.
Proof.
  unfold submitting. intros Hs He.
  destruct (overlay w) as [o|] eqn:Ho; [|discriminate].
  destruct (content o) eqn:Hc; [|discriminate].
  destruct e as [k| | |f|n1 n2 r|ok]; simpl in He; try contradiction; simpl;
    try reflexivity.
  unfold submit_form. rewrite Ho, Hc, Hs. reflexivity.
Qed.

Lemma hosted_user_events_keep_inflight (es : list Hosted.Event) (w : Hosted.World) :
  submitting w = true ->
  Forall hosted_user_event es ->
  inflight (Hosted.run es w) = inflight w.
Proof.
  intros Hs Hes. revert w Hs. induction Hes as [|e es He _ IH]; intros w Hs.
  - reflexivity.
  - destruct (hosted_user_event_while_submitting e w Hs He) as [Hs' _].
    change (Hosted.run (e :: es) w) with (Hosted.run es (Hosted.step e w)).
    rewrite (IH _ Hs').
    apply hosted_user_event_keeps_inflight; assumption.
Qed.

(** X14. In the hosted copy, when the remote sink accepts the order the
    success screen shows the id of the order that was sent and the email
    that was in the form when it was submitted, whatever was typed into the
    form or done to the cart while the submission was under way; and the
    cart is empty. *)
Theorem hosted_success_shows_the_order_sent
  (w : Hosted.World) (es : list Hosted.Event) (now_pending now_id random : Z) :
  form_shown w = true ->
  valid_email (form_email w) = true ->
  db w = true ->
  Forall hosted_user_event es ->
  exists order,
    sink (Hosted.run (Hosted.Submit now_pending now_id random :: es
                      ++ [Hosted.OrderSettled true]) w)
    = sink w ++ [order]
    /\ Hosted.customer_email order = form_email w
    /\ content <$> overlay (Hosted.run (Hosted.Submit now_pending now_id random :: es
                                        ++ [Hosted.OrderSettled true]) w)
       = Some (SuccessScreen (Hosted.order_id order) (Hosted.customer_email order))
    /\ items (cart (Hosted.run (Hosted.Submit now_pending now_id random :: es
                                ++ [Hosted.OrderSettled true]) w)) = [].
Proof.
  intros Hform Hvalid Hdb Hes.
  destruct (hosted_submit_suspended w now_pending now_id random Hform Hvalid Hdb)
    as (order & Hsink & Hin & Hemail & _ & Hs).
  exists order.
  change (Hosted.run (Hosted.Submit now_pending now_id random :: es
                      ++ [Hosted.OrderSettled true]) w)
    with (Hosted.run (es ++ [Hosted.OrderSettled true])
            (Hosted.step (Hosted.Submit now_pending now_id random) w)).
  rewrite hosted_run_app.
  set (w1 := Hosted.step (Hosted.Submit now_pending now_id random) w) in *.
  destruct (hosted_user_events_while_submitting es w1 Hs Hes) as [Hs2 Hsink2].
  pose proof (hosted_user_events_keep_inflight es w1 Hs Hes) as Hin2.
  set (w2 := Hosted.run es w1) in *.
  change (Hosted.run [Hosted.OrderSettled true] w2)
    with (Hosted.processPayPalCheckout_settled true w2).
  unfold Hosted.processPayPalCheckout_settled. rewrite Hin2, Hin.
  unfold submitting in Hs2. destruct (overlay w2) as [o|] eqn:Ho; [|discriminate].
  simpl. rewrite Ho. simpl. rewrite items_clear.
  split; [congruence|]. split; [exact Hemail|]. split; [|reflexivity].
  rewrite Hemail. unfold form_email, form_shown in *.
  destruct (overlay w); [reflexivity | discriminate].
Qed.

Lemma hosted_success_shows_the_order_sent_witness :
  exists order,
    sink (Hosted.run (Hosted.Submit 1730540000123 1730540000124 7
                      :: [Hosted.Input alice_no_at; Hosted.Ledger Clear]
                      ++ [Hosted.OrderSettled true]) hosted_form_filled)
    = sink hosted_form_filled ++ [order]
    /\ Hosted.customer_email order = form_email hosted_form_filled
    /\ content <$> overlay (Hosted.run (Hosted.Submit 1730540000123 1730540000124 7
                                        :: [Hosted.Input alice_no_at; Hosted.Ledger Clear]
                                        ++ [Hosted.OrderSettled true]) hosted_form_filled)
       = Some (SuccessScreen (Hosted.order_id order) (Hosted.customer_email order))
    /\ items (cart (Hosted.run (Hosted.Submit 1730540000123 1730540000124 7
                                :: [Hosted.Input alice_no_at; Hosted.Ledger Clear]
                                ++ [Hosted.OrderSettled true]) hosted_form_filled)) = [].
Proof.
  apply (hosted_success_shows_the_order_sent hosted_form_filled
           [Hosted.Input alice_no_at; Hosted.Ledger Clear]
           1730540000123 1730540000124 7); try reflexivity.
  repeat constructor.
Defined.

(** X15. The pending order.  In the hosted copy a submission that passes
    the check of the email writes the pending order (the form, the line
    items and the total of the cart, the time) before anything else, also
    when [db] is not defined; a submission that fails the check writes
    nothing.  No event removes a pending order once written, not even a
    successful checkout; the simulated copy never writes one. *)
Theorem pending_order_is_written_and_kept :
  (forall (w : Hosted.World) now_pending now_id random,
      form_shown w = true ->
      valid_email (form_email w) = true ->
      threadheaven_pending_order (Hosted.step (Hosted.Submit now_pending now_id random) w)
      = Some (mkPending
                (match overlay w with Some o => fields o | None => empty_form end)
                (items (cart w)) (getTotal (cart w)) now_pending))
  /\ (forall (w : Hosted.World) now_pending now_id random,
        valid_email (form_email w) = false ->
        threadheaven_pending_order (Hosted.step (Hosted.Submit now_pending now_id random) w)
        = threadheaven_pending_order w)
  /\ (forall (e : Hosted.Event) (w : Hosted.World),
        threadheaven_pending_order w <> None ->
        threadheaven_pending_order (Hosted.step e w) <> None)
  /\ (forall (e : Simulated.Event) (w : Simulated.World),
        threadheaven_pending_order (Simulated.step e w) = threadheaven_pending_order w).
Proof.
  split; [|split; [|split]].
  - intros w n1 n2 r Hform Hvalid. unfold form_shown, form_email in *.
    simpl. unfold submit_form.
    destruct (overlay w) as [o|] eqn:Ho; [|discriminate].
    destruct (content o) eqn:Hc; [|discriminate].
    destruct (btn_disabled o) eqn:Hb; [discriminate|].
    unfold Hosted.processPayPalCheckout.
    rewrite rejects_iff_not_valid, Hvalid. simpl. destruct (db w); reflexivity.
  - intros w n1 n2 r Hinvalid. unfold form_email in *. simpl. unfold submit_form.
    destruct (overlay w) as [o|] eqn:Ho; [|reflexivity].
    destruct (content o); [|reflexivity].
    destruct (btn_disabled o); [reflexivity|].
    unfold Hosted.processPayPalCheckout.
    rewrite rejects_iff_not_valid, Hinvalid. reflexivity.
  - intros e w Hw. destruct e as [k| | |f|n1 n2 r|ok]; simpl; try exact Hw.
    + unfold Hosted.checkout. destruct (_ =? _)%nat; exact Hw.
    + unfold Hosted.showCheckoutModal_resumed. destruct (opening w); exact Hw.
    + unfold submit_form. destruct (overlay w) as [o|]; [|exact Hw].
      destruct (content o); [|exact Hw]. destruct (btn_disabled o); [exact Hw|].
      unfold Hosted.processPayPalCheckout.
      destruct (String.eqb (Customer.email (fields o)) "" || _); [exact Hw|].
      simpl. destruct (db w); discriminate.
    + unfold Hosted.processPayPalCheckout_settled.
      destruct (inflight w); [|exact Hw]. destruct ok; exact Hw.
  - intros e w. destruct e as [k| |f| |a b|ok n]; simpl; try reflexivity.
    + unfold Simulated.checkout. destruct (_ =? _)%nat; reflexivity.
    + unfold submit_form. destruct (overlay w) as [o|]; [|reflexivity].
      destruct (content o); [|reflexivity]. destruct (btn_disabled o); reflexivity.
    + unfold Simulated.processPayment_delay_elapsed.
      destruct (inflight w) as [[|email]|]; try reflexivity.
      destruct (overlay w); [|reflexivity]. destruct (db w); reflexivity.
    + unfold Simulated.processPayment_settled.
      destruct (inflight w) as [[|email]|]; reflexivity.
Qed.

Lemma pending_order_is_written_and_kept_witness :
  threadheaven_pending_order
    (Hosted.step (Hosted.Submit 1730540000123 1730540000124 7) hosted_form_filled_no_db)
  = Some (mkPending alice (items one_line_cart) 55 1730540000123)
  /\ threadheaven_pending_order
       (Hosted.step (Hosted.Submit 1730540000123 1730540000124 7) hosted_form_no_at)
     = None
  /\ threadheaven_pending_order (Hosted.step (Hosted.OrderSettled true) hosted_waiting)
     <> None.
Proof.
  destruct pending_order_is_written_and_kept as (Hwritten & Hnot & Hkept & _).
  split; [|split].
  - apply (Hwritten hosted_form_filled_no_db); reflexivity.
  - apply (Hnot hosted_form_no_at). reflexivity.
  - apply Hkept. discriminate.
Defined.

Lemma hosted_submit_keeps_page (w : Hosted.World) (now_pending now_id random : Z) :
  form_shown w = true ->
  db (Hosted.step (Hosted.Submit now_pending now_id random) w) = db w
  /\ cart (Hosted.step (Hosted.Submit now_pending now_id random) w) = cart w
  /\ form_email (Hosted.step (Hosted.Submit now_pending now_id random) w) = form_email w.
Proof.
  unfold form_shown, form_email. intros Hform. simpl. unfold submit_form.
  destruct (overlay w) as [o|] eqn:Ho; [|discriminate].
  destruct (content o) eqn:Hc; [|discriminate].
  destruct (btn_disabled o) eqn:Hb; [discriminate|].
  unfold Hosted.processPayPalCheckout.
  destruct (String.eqb (Customer.email (fields o)) "" || _); simpl.
  - rewrite Ho. repeat split.
  - destruct (db w) eqn:Hdb; simpl; rewrite ?Hdb, Ho; simpl; repeat split; reflexivity.
Qed.

Lemma hosted_rejection_returns_to_form (w : Hosted.World) :
  submitting w = true ->
  inflight w <> None ->
  form_shown (Hosted.step (Hosted.OrderSettled false) w) = true
  /\ sink (Hosted.step (Hosted.OrderSettled false) w) = sink w
  /\ db (Hosted.step (Hosted.OrderSettled false) w) = db w
  /\ cart (Hosted.step (Hosted.OrderSettled false) w) = cart w
  /\ form_email (Hosted.step (Hosted.OrderSettled false) w) = form_email w.
Proof.
  unfold submitting, form_shown, form_email. intros Hs Hin. simpl.
  unfold Hosted.processPayPalCheckout_settled.
  destruct (inflight w); [|contradiction].
  destruct (overlay w) as [o|] eqn:Ho; [|discriminate].
  destruct (content o) eqn:Hc; [|discriminate].
  simpl. rewrite Ho. simpl. rewrite Hc. repeat split.
Qed.

(** X16. In the hosted copy nothing ties a retry to the submission it
    repeats: when the remote sink rejects an order and the form is submitted
    again, a second order with the same email and the same items goes to the
    sink. *)
Theorem hosted_retry_sends_another_order
  (w : Hosted.World) (p1 i1 r1 p2 i2 r2 : Z) :
  form_shown w = true ->
  valid_email (form_email w) = true ->
  db w = true ->
  exists first second,
    sink (Hosted.run [Hosted.Submit p1 i1 r1; Hosted.OrderSettled false;
                      Hosted.Submit p2 i2 r2] w)
    = sink w ++ [first; second]
    /\ Hosted.customer_email second = Hosted.customer_email first
    /\ Hosted.order_items second = Hosted.order_items first.
Proof.
  intros Hform Hvalid Hdb.
  destruct (hosted_submit_suspended w p1 i1 r1 Hform Hvalid Hdb)
    as (first & Hsink & Hin & Hemail & Hitems & Hs).
  destruct (hosted_submit_keeps_page w p1 i1 r1 Hform) as (Hdb1 & Hcart1 & Hemail1).
  change (Hosted.run [Hosted.Submit p1 i1 r1; Hosted.OrderSettled false;
                      Hosted.Submit p2 i2 r2] w)
    with (Hosted.step (Hosted.Submit p2 i2 r2)
            (Hosted.step (Hosted.OrderSettled false)
               (Hosted.step (Hosted.Submit p1 i1 r1) w))).
  destruct (hosted_rejection_returns_to_form
              (Hosted.step (Hosted.Submit p1 i1 r1) w) Hs)
    as (Hform2 & Hsink2 & Hdb2 & Hcart2 & Hemail2); [congruence|].
  destruct (hosted_submit_suspended
              (Hosted.step (Hosted.OrderSettled false)
                 (Hosted.step (Hosted.Submit p1 i1 r1) w)) p2 i2 r2)
    as (second & Hsink3 & _ & Hemail3 & Hitems3 & _); try congruence.
  exists first, second. split.
  - rewrite Hsink3, Hsink2, Hsink, <- app_assoc. reflexivity.
  - split; congruence.
Qed.

Lemma hosted_retry_sends_another_order_witness :
  exists first second,
    sink (Hosted.run [Hosted.Submit 1730540000123 1730540000124 7;
                      Hosted.OrderSettled false;
                      Hosted.Submit 1730540009000 1730540009001 8] hosted_form_filled)
    = sink hosted_form_filled ++ [first; second]
    /\ Hosted.customer_email second = Hosted.customer_email first
    /\ Hosted.order_items second = Hosted.order_items first.
Proof.
  apply (hosted_retry_sends_another_order hosted_form_filled
           1730540000123 1730540000124 7 1730540009000 1730540009001 8);
    reflexivity.
Defined.

(** ** The summary *)

(** X18. In the hosted copy the overlay is built when the dependencies have
    been loaded, not when [checkout] is called: the summary shows the cart
    as the ledger calls made in between have left it, an emptied cart
    included, for which the form is shown with no line and the total 0. *)
Theorem hosted_summary_is_rendered_after_loading
  (c : CartManager) (db_defined : bool) (ks : list Call) :
  items c <> [] ->
  shown_summary
    (Hosted.run ([Hosted.Checkout] ++ map Hosted.Ledger ks ++ [Hosted.DependenciesLoaded])
       (Hosted.idle c db_defined))
  = Some (map render_line (items (calls ks c)), getTotal (calls ks c))
  /\ shown_summary
       (Hosted.run ([Hosted.Checkout] ++ map Hosted.Ledger (ks ++ [Clear])
                    ++ [Hosted.DependenciesLoaded])
          (Hosted.idle c db_defined))
     = Some ([], 0).
Proof.
  intros Hne.
  assert (forall ks',
             shown_summary
               (Hosted.run ([Hosted.Checkout] ++ map Hosted.Ledger ks'
                            ++ [Hosted.DependenciesLoaded])
                  (Hosted.idle c db_defined))
             = Some (map render_line (items (calls ks' c)), getTotal (calls ks' c))) as H.
  { intros ks'. rewrite hosted_run_app.
    assert (Hosted.run [Hosted.Checkout] (Hosted.idle c db_defined)
            = set_opening true (Hosted.idle c db_defined)) as ->.
    { simpl. unfold Hosted.checkout. simpl.
      destruct (items c) as [|item l]; [contradiction | reflexivity]. }
    rewrite hosted_run_app, hosted_run_ledger. reflexivity. }
  split; [apply H|].
  rewrite H. unfold calls. rewrite fold_left_app. simpl.
  unfold after_call. simpl. rewrite items_clear.
  unfold getTotal. rewrite items_clear. reflexivity.
Qed.

Lemma hosted_summary_is_rendered_after_loading_witness :
  shown_summary
    (Hosted.run ([Hosted.Checkout]
                 ++ map Hosted.Ledger [AddItem tech_cargo 1 (Some "M"%string)]
                 ++ [Hosted.DependenciesLoaded])
       (Hosted.idle one_line_cart true))
  = Some (map render_line
            (items (calls [AddItem tech_cargo 1 (Some "M"%string)] one_line_cart)),
          getTotal (calls [AddItem tech_cargo 1 (Some "M"%string)] one_line_cart)).
Proof.
  apply (hosted_summary_is_rendered_after_loading one_line_cart true
           [AddItem tech_cargo 1 (Some "M"%string)]).
  discriminate.
Defined.

(** X19. In the simulated copy with [db] not defined, a submission runs to
    its end when the timer fires: the success screen is shown and the cart
    is emptied, in memory and in the store, while no order has gone to the
    remote sink. *)
Theorem simulated_succeeds_without_db
  (w : Simulated.World) (es : list Simulated.Event) (now_created now_id : Z) :
  form_shown w = true ->
  db w = false ->
  Forall simulated_user_event es ->
  sink (Simulated.run (Simulated.Submit :: es
                       ++ [Simulated.DelayElapsed now_created now_id]) w) = sink w
  /\ success_shown (Simulated.run (Simulated.Submit :: es
                                   ++ [Simulated.DelayElapsed now_created now_id]) w)
     = true
  /\ items (cart (Simulated.run (Simulated.Submit :: es
                                 ++ [Simulated.DelayElapsed now_created now_id]) w)) = []
  /\ threadheaven_cart
       (cart (Simulated.run (Simulated.Submit :: es
                             ++ [Simulated.DelayElapsed now_created now_id]) w))
     = Some (JSON_stringify []).
Proof.
  intros Hform Hdb Hes.
  destruct (simulated_submit_started w Hform) as (Hs & Hin & Hsink & Hdb1 & _).
  change (Simulated.run (Simulated.Submit :: es
                         ++ [Simulated.DelayElapsed now_created now_id]) w)
    with (Simulated.run (es ++ [Simulated.DelayElapsed now_created now_id])
            (Simulated.step Simulated.Submit w)).
  rewrite simulated_run_app.
  destruct (simulated_user_events_while_submitting es _ Hs Hes)
    as (Hs2 & Hsink2 & Hin2 & Hdb2).
  set (w2 := Simulated.run es (Simulated.step Simulated.Submit w)) in *.
  change (Simulated.run [Simulated.DelayElapsed now_created now_id] w2)
    with (Simulated.processPayment_delay_elapsed now_created now_id w2).
  unfold Simulated.processPayment_delay_elapsed. rewrite Hin2, Hin.
  unfold submitting, success_shown in *.
  destruct (overlay w2) as [o|] eqn:Ho; [|discriminate].
  replace (db w2) with false by congruence.
  unfold Simulated.processPayment_finish. simpl. rewrite Ho. simpl.
  rewrite items_clear. unfold clear. rewrite stored_saveToStorage.
  repeat split. congruence.
Qed.

Lemma simulated_succeeds_without_db_witness :
  sink (Simulated.run (Simulated.Submit :: [Simulated.Submit]
                       ++ [Simulated.DelayElapsed 1730540002500 1730540002500])
          (Simulated.run [Simulated.Checkout; Simulated.Input alice]
             (Simulated.idle one_line_cart false))) = []
  /\ success_shown
       (Simulated.run (Simulated.Submit :: [Simulated.Submit]
                       ++ [Simulated.DelayElapsed 1730540002500 1730540002500])
          (Simulated.run [Simulated.Checkout; Simulated.Input alice]
             (Simulated.idle one_line_cart false))) = true.
Proof.
  destruct (simulated_succeeds_without_db
              (Simulated.run [Simulated.Checkout; Simulated.Input alice]
                 (Simulated.idle one_line_cart false))
              [Simulated.Submit] 1730540002500 1730540002500)
    as (Hsink & Hshown & _); try reflexivity.
  - repeat constructor.
  - split; [exact Hsink | exact Hshown].
Defined.

(** * The customer profile and the address search *)



Lemma existsb_eqb_In (v : string) (options : list string) :
  existsb (String.eqb v) options = true <-> In v options.
Proof.
  rewrite existsb_exists. split.
  - intros (x & Hx & Heq). apply String.eqb_eq in Heq. subst x. exact Hx.
  - intros H. exists v. split; [exact H | apply String.eqb_refl].
Qed.



(** X21. [getUserProfile] answers [null] only when nobody is signed in.  For
    a signed-in user whose row cannot be read (the query fails or finds no
    row) it answers with the email of the user, the full name of the
    metadata and empty address fields; so the pre-fill then sets the email
    and the name at most and leaves address, city, postal code and country
    as they are in the form. *)
Theorem profile_without_row_fills_email_and_name
  (options : list string) (u : Profile.User) (answer : Profile.Answer)
  (form : Customer.t) (locked : bool) :
  Profile.error answer = true \/ Profile.data answer = None ->
  Profile.getUserProfile None answer = None
  /\ Profile.getUserProfile (Some u) answer <> None
  /\ fst (Profile.prefill options (Profile.getUserProfile (Some u) answer) form locked)
     = Customer.mk
         (or_else (Profile.user_email u) (Customer.email form))
         (or_else (match Profile.full_name u with Some n => n | None => ""%string end)
                  (Customer.name form))
         (Customer.address form) (Customer.city form) (Customer.zip form)
         (Customer.country form).
Proof.
  intros Hrow. split; [reflexivity|].
  unfold Profile.getUserProfile.
  destruct (Profile.error answer) eqn:He, (Profile.data answer) eqn:Hd;
    try (destruct Hrow; discriminate); split; try discriminate; reflexivity.
Qed.

Lemma profile_without_row_fills_email_and_name_witness :
  fst (Profile.prefill [] 
         (Profile.getUserProfile
            (Some (Profile.mkUser "alice@example.com" None))
            (Profile.mkAnswer None true))
         (Customer.mk "" "Bob" "1 Main St" "" "" "") false)
  = Customer.mk "alice@example.com" "Bob" "1 Main St" "" "" "".
Proof.
  apply (profile_without_row_fills_email_and_name []
           (Profile.mkUser "alice@example.com" None) (Profile.mkAnswer None true)
           (Customer.mk "" "Bob" "1 Main St" "" "" "") false).
  left. reflexivity.
Defined.

(** ** The address search *)

Lemma on_input_long (query country : string) (v : Address.t) :
  (3 <= String.length query)%nat ->
  Address.step (Address.Input query country) v = Address.search query country v.
Proof.
  intros H. simpl. unfold Address.on_input.
  replace (String.length query <? 3)%nat with false
    by (symmetry; apply Nat.ltb_ge; exact H).
  reflexivity.
Qed.

Lemma address_run_app (es1 es2 : list Address.Event) (v : Address.t) :
  Address.run (es1 ++ es2) v = Address.run es2 (Address.run es1 v).
Proof. apply fold_left_app. Qed.

Lemma inputs_leave_one_timer (inputs : list (string * string)) :
  forall (v : Address.t) (query country : string),
    Forall (fun i => (3 <= String.length i.1)%nat) inputs ->
    last inputs = Some (query, country) ->
    Address.timeout (Address.run (map (fun i => Address.Input i.1 i.2) inputs) v)
    = Some (Address.mkRequest (Address.next_id v + length inputs - 1) query country)
    /\ Address.fetched (Address.run (map (fun i => Address.Input i.1 i.2) inputs) v)
       = Address.fetched v
    /\ Address.fetching (Address.run (map (fun i => Address.Input i.1 i.2) inputs) v)
       = Address.fetching v.
Proof.
  induction inputs as [|[q c] inputs IH]; intros v query country Hlong Hlast;
    [discriminate|].
  apply Forall_cons in Hlong as [Hq Hlong].
  change (Address.run (map (fun i => Address.Input i.1 i.2) ((q, c) :: inputs)) v)
    with (Address.run (map (fun i => Address.Input i.1 i.2) inputs)
            (Address.step (Address.Input q c) v)).
  rewrite (on_input_long q c v Hq).
  destruct inputs as [|i inputs].
  - injection Hlast as -> ->. simpl. repeat split. f_equal. f_equal. lia.
  - destruct (IH (Address.search q c v) query country Hlong Hlast) as (H1 & H2 & H3).
    rewrite H1, H2, H3. repeat split. simpl. f_equal. f_equal. lia.
Qed.

(** X22. The debounce of the address search.  However many inputs of three
    characters or more arrive before the timer fires, one request goes out
    when it fires, for the query and the country of the last input; the
    searches of the earlier inputs are never fetched.  An input shorter
    than three characters only hides the dropdown: it starts no search and
    clears no timer, so a search started before it still goes out. *)
Theorem address_search_is_debounced :
  (forall (inputs : list (string * string)) (v : Address.t) (query country : string),
      Forall (fun i => (3 <= String.length i.1)%nat) inputs ->
      last inputs = Some (query, country) ->
      Address.fetched
        (Address.run (map (fun i => Address.Input i.1 i.2) inputs ++ [Address.TimerFired]) v)
      = Address.fetched v
        ++ [Address.mkRequest (Address.next_id v + length inputs - 1) query country])
  /\ (forall (v : Address.t) (query country : string),
        (String.length query < 3)%nat ->
        Address.step (Address.Input query country) v = Address.hide v
        /\ Address.fetched
             (Address.run [Address.Input query country; Address.TimerFired] v)
           = Address.fetched (Address.run [Address.TimerFired] v)).
Proof.
  split.
  - intros inputs v query country Hlong Hlast.
    rewrite address_run_app.
    destruct (inputs_leave_one_timer inputs v query country Hlong Hlast)
      as (Htimer & Hfetched & _).
    simpl. unfold Address.on_timer. rewrite Htimer. simpl. rewrite Hfetched.
    reflexivity.
  - intros v query country Hshort.
    assert (Address.step (Address.Input query country) v = Address.hide v) as Hstep.
    { simpl. unfold Address.on_input.
      replace (String.length query <? 3)%nat with true
        by (symmetry; apply Nat.ltb_lt; exact Hshort).
      reflexivity. }
    split; [exact Hstep|].
    change (Address.run [Address.Input query country; Address.TimerFired] v)
      with (Address.step Address.TimerFired (Address.step (Address.Input query country) v)).
    rewrite Hstep. simpl. unfold Address.on_timer. simpl.
    destruct (Address.timeout v); reflexivity.
Qed.

Lemma address_search_is_debounced_witness :
  Address.fetched
    (Address.run (map (fun i => Address.Input i.1 i.2)
                    [("12 M"%string, "United States"%string);
                     ("12 Ma"%string, "United States"%string);
                     ("12 Mai"%string, "United States"%string)]
                  ++ [Address.TimerFired]) Address.initial)
  = [Address.mkRequest 2 "12 Mai" "United States"]
  /\ Address.fetched
       (Address.run [Address.Input "12"%string ""%string; Address.TimerFired]
          (Address.step (Address.Input "12 M"%string ""%string) Address.initial))
     = [Address.mkRequest 0 "12 M" ""].
Proof.
  destruct address_search_is_debounced as [Hburst Hshort]. split.
  - apply (Hburst [("12 M"%string, "United States"%string);
                   ("12 Ma"%string, "United States"%string);
                   ("12 Mai"%string, "United States"%string)] Address.initial).
    + repeat constructor.
    + reflexivity.
  - rewrite (proj2 (Hshort (Address.step (Address.Input "12 M"%string ""%string)
                              Address.initial) "12"%string ""%string ltac:(simpl; lia))).
    reflexivity.
Defined.

(** X23. Answers are applied in the order in which they arrive, not in the
    order of the searches.  With two requests out, when the answer of the
    older one arrives after the answer of the newer one, the older results
    replace the newer ones in the dropdown and in [this.suggestions]; and
    when the older request fails then, the dropdown is hidden although the
    newer results had arrived. *)
Theorem late_answer_of_older_search_wins
  (v : Address.t) (q1 c1 q2 c2 : string) (d1 d2 : list Address.Place) (e : JsError) :
  Address.fetching v = [] ->
  (3 <= String.length q1)%nat ->
  (3 <= String.length q2)%nat ->
  d1 <> [] ->
  Address.fetched
    (Address.run [Address.Input q1 c1; Address.TimerFired;
                  Address.Input q2 c2; Address.TimerFired] v)
  = Address.fetched v
    ++ [Address.mkRequest (Address.next_id v) q1 c1;
        Address.mkRequest (S (Address.next_id v)) q2 c2]
  /\ Address.dropdown
       (Address.run [Address.Input q1 c1; Address.TimerFired;
                     Address.Input q2 c2; Address.TimerFired;
                     Address.Settled (S (Address.next_id v)) (Ret d2);
                     Address.Settled (Address.next_id v) (Ret d1)] v)
     = Some (map Address.to_suggestion d1)
  /\ Address.suggestions
       (Address.run [Address.Input q1 c1; Address.TimerFired;
                     Address.Input q2 c2; Address.TimerFired;
                     Address.Settled (S (Address.next_id v)) (Ret d2);
                     Address.Settled (Address.next_id v) (Ret d1)] v)
     = map Address.to_suggestion d1
  /\ Address.dropdown
       (Address.run [Address.Input q1 c1; Address.TimerFired;
                     Address.Input q2 c2; Address.TimerFired;
                     Address.Settled (S (Address.next_id v)) (Ret d2);
                     Address.Settled (Address.next_id v) (Throw e)] v)
     = None.
Proof.
  intros Hnone Hq1 Hq2 Hd1.
  unfold Address.run. cbn [fold_left].
  rewrite (on_input_long q1 c1 v Hq1).
  set (v1 := Address.step Address.TimerFired (Address.search q1 c1 v)).
  rewrite (on_input_long q2 c2 v1 Hq2).
  set (v2 := Address.step Address.TimerFired (Address.search q2 c2 v1)).
  assert (Address.fetching v2
          = [Address.mkRequest (Address.next_id v) q1 c1;
             Address.mkRequest (S (Address.next_id v)) q2 c2]) as Hfetching.
  { subst v2 v1. simpl. rewrite Hnone. reflexivity. }
  split.
  { subst v2 v1. simpl. rewrite <- app_assoc. reflexivity. }
  assert (forall answer,
             Address.fetching (Address.step (Address.Settled (S (Address.next_id v)) answer) v2)
             = [Address.mkRequest (Address.next_id v) q1 c1]) as Hleft.
  { intros answer. simpl. unfold Address.on_settled. rewrite Hfetching. simpl.
    replace (Address.next_id v =? S (Address.next_id v))%nat with false
      by (symmetry; apply Nat.eqb_neq; lia).
    rewrite Nat.eqb_refl. reflexivity. }
  set (v3 := Address.step (Address.Settled (S (Address.next_id v)) (Ret d2)) v2) in *.
  specialize (Hleft (Ret d2)). fold v3 in Hleft.
  split; [|split].
  - simpl. unfold Address.on_settled. rewrite Hleft. simpl. rewrite Nat.eqb_refl. simpl.
    destruct d1 as [|p d1]; [contradiction | reflexivity].
  - simpl. unfold Address.on_settled. rewrite Hleft. simpl. rewrite Nat.eqb_refl.
    reflexivity.
  - simpl. unfold Address.on_settled. rewrite Hleft. simpl. rewrite Nat.eqb_refl.
    reflexivity.
Qed.

Lemma late_answer_of_older_search_wins_witness :
  Address.dropdown
    (Address.run [Address.Input "Some L" ""; Address.TimerFired;
                  Address.Input "12 Main" ""; Address.TimerFired;
                  Address.Settled 1 (Ret [main_street]);
                  Address.Settled 0 (Ret [some_lake])] Address.initial)
  = Some (map Address.to_suggestion [some_lake]).
Proof.
  apply (late_answer_of_older_search_wins Address.initial
           "Some L" "" "12 Main" "" [some_lake] [main_street] TypeError).
  - reflexivity.
  - simpl. lia.
  - simpl. lia.
  - discriminate.
Defined.

(** X24. The address search in the checkout form of the hosted copy.  The
    checkout attaches the validator only when [window.addressValidator] is
    set; the script of the validator declares the name with [const], which
    sets no property of [window], so as the repository declares it nothing
    is attached and no row can be picked: the form stays as it is.  Where a
    validator is attached and the dropdown shows a row, picking the row
    hides the dropdown and never touches the name and the email; it
    replaces the city and the postal code by those of the suggestion, also
    when the suggestion has none; it puts the street of the suggestion into
    the address field, or the display name of the place when the place has
    neither road nor house number; and it sets the country to that of the
    suggestion when the country list offers it, and leaves it otherwise. *)
Theorem on_select_fills_the_address
  (options : list string) (v : Address.t) (shown : list Address.Suggestion) (k : nat)
  (item : Address.Place) (form : Customer.t) :
  Address.attach_checkout (Address.on_window Address.addressValidator_declaration) = None
  /\ Address.pick options k (Address.attach_checkout false) form = (None, form)
  /\ (Address.dropdown v = Some shown ->
      shown !! k = Some (Address.to_suggestion item) ->
      exists form',
        Address.pick options k (Some v) form = (Some (Address.hide v), form')
        /\ Customer.email form' = Customer.email form
        /\ Customer.name form' = Customer.name form
        /\ Customer.city form'
           = or_else (Address.place_city item)
               (or_else (Address.town item)
                  (or_else (Address.village item) (Address.county item)))
        /\ Customer.zip form' = Address.postcode item
        /\ Customer.address form'
           = or_else (Address.street (Address.to_suggestion item))
               (Address.place_display_name item)
        /\ (Address.road item = ""%string ->
            Address.house_number item = ""%string ->
            Customer.address form' = Address.place_display_name item)
        /\ (In (Address.place_country item) options ->
            Customer.country form' = Address.place_country item)
        /\ (~ In (Address.place_country item) options ->
            Customer.country form' = Customer.country form)).
Proof.
  split; [reflexivity|]. split; [reflexivity|].
  intros Hshown Hrow. unfold Address.pick. rewrite Hshown, Hrow.
  eexists. split; [reflexivity|].
  do 5 (split; [reflexivity|]).
  split; [|split].
  - intros Hroad Hhouse. simpl. rewrite Hroad, Hhouse. reflexivity.
  - intros Hin. simpl. rewrite (proj2 (existsb_eqb_In _ _) Hin). reflexivity.
  - intros Hout. simpl.
    destruct (existsb (String.eqb (Address.place_country item)) options) eqn:E;
      [|reflexivity].
    exfalso. apply Hout. apply existsb_eqb_In. exact E.
Qed.

Lemma on_select_fills_the_address_witness :
  exists form',
    Address.pick ["United States"%string] 0
      (Some (Address.run [Address.Input "Some Lake" ""; Address.TimerFired;
                          Address.Settled 0 (Ret [some_lake])]
               Address.initial))
      alice
    = (Some (Address.hide
               (Address.run [Address.Input "Some Lake" ""; Address.TimerFired;
                             Address.Settled 0 (Ret [some_lake])]
                  Address.initial)),
       form')
    /\ Customer.address form' = "Some Lake, Lake County"%string
    /\ Customer.country form' = "United States"%string.
Proof.
  destruct (on_select_fills_the_address ["United States"%string]
              (Address.run [Address.Input "Some Lake" ""; Address.TimerFired;
                            Address.Settled 0 (Ret [some_lake])]
                 Address.initial)
              [Address.to_suggestion some_lake] 0 some_lake alice)
    as (_ & _ & Hpick).
  destruct (Hpick eq_refl eq_refl)
    as (form' & Heq & _ & _ & _ & _ & _ & Haddress & Hcountry & _).
  exists form'. split; [exact Heq|]. split.
  - apply Haddress; reflexivity.
  - apply Hcountry. left. reflexivity.
Defined.
